(** * Occurrence features of a dated event history

    A shallow embedding of
    [temporal_event_predictor/core/ml/occurrence_features.py]
    (class [OccurrenceFeatureExtractor]) and the properties of its
    weekday statistics, gap list, periodicity score, decision rule and
    cache administration.

    - A history is the date column of the [DataFrame], a list of
      timestamps with nanosecond resolution, as pandas holds them.
    - Python floats are IEEE 754 binary64 numbers.
    - The cache is a finite map from key strings to statistics; a method
      takes the extractor and returns its result together with the
      extractor after the call and the debug messages it logged.
    - A function that can raise returns an [option]; [None] is the
      exception.  What can raise in this code on a history whose date
      column is datetime-typed is the division of two Python ints; on an
      empty history whose date column has the dtype [object], the span
      of the dates raises.
    - The loop of [_count_weekdays_in_range] is defined by well-founded
      recursion on the number of days left.  Timestamps are integers
      without the bound of pandas, so the loop always ends here; in
      pandas its last step raises when it passes [Timestamp.max]. *)

From Stdlib Require Import ZArith Lia Ascii String.
From Stdlib Require Import Floats.SpecFloat.
From stdpp Require Import gmap strings list pretty sorting.
From Equations Require Import Equations.

Open Scope Z_scope.

(** ** Python floats: IEEE 754 binary64

    The executable specification of binary floating point of the standard
    library, at precision 53 and maximal exponent 1024. *)

Module Float64.
Definition prec : Z := 53.
Definition emax : Z := 1024.

Definition float : Type := spec_float.

Definition add : float -> float -> float := SFadd prec emax.
Definition sub : float -> float -> float := SFsub prec emax.
Definition mul : float -> float -> float := SFmul prec emax.
Definition div : float -> float -> float := SFdiv prec emax.
Definition sqrt : float -> float := SFsqrt prec emax.
Definition eqb : float -> float -> bool := SFeqb.
Definition ltb : float -> float -> bool := SFltb.

(** [float(n)] for a Python int [n]: rounded to nearest, ties to even;
    exact whenever [|n| < 2^53]. *)
Definition of_int (n : Z) : float := binary_normalize prec emax n 0 false.

(** The literals [0.0] and [1.0]. *)
Definition zero : float := S754_zero false.
Definition one : float := of_int 1.
End Float64.

Abbreviation float := Float64.float.

(** [a / b] on Python ints: [None] stands for the [ZeroDivisionError] that
    Python raises on a zero divisor.  For operands below [2^53] in absolute
    value, the only ones an event count can reach, the correctly rounded
    quotient is the binary64 quotient of the converted operands. *)
Definition py_truediv (a b : Z) : option float :=
  if decide (b = 0) then None
  else Some (Float64.div (Float64.of_int a) (Float64.of_int b)).

(** ** Timestamps

    A pandas [Timestamp] of a [datetime64[ns]] column: the number of
    nanoseconds since 1970-01-01 00:00, a Thursday.  pandas keeps the
    number in 64 bits, which ends at [Timestamp.max], 2262-04-11; here it
    is an integer without bound.  The difference shows in one place: the
    loop of [_count_weekdays_in_range] adds a day once more after the last
    date that it counts, and pandas raises [OutOfBoundsDatetime] there when
    the latest event of a history is less than a day before
    [Timestamp.max]. *)

Definition Timestamp : Type := Z.

Definition NS_PER_DAY : Z := 86400000000000.

(** [timedelta(days=n)]. *)
Definition timedelta_days (n : Z) : Z := n * NS_PER_DAY.

(** [delta.days] of a difference of two timestamps: whole days, rounded
    towards minus infinity. *)
Definition days (delta : Z) : Z := delta / NS_PER_DAY.

(** The calendar date of a timestamp, as a day number since 1970-01-01, and
    what is left of it, the time of day. *)
Definition day_number (t : Timestamp) : Z := t / NS_PER_DAY.
Definition time_of_day (t : Timestamp) : Z := t mod NS_PER_DAY.

(** Weekday of a day number: 0 is Monday, 6 is Sunday. *)
Definition weekday_of_day (d : Z) : Z := (d + 3) mod 7.

(** [t.weekday()], also [Series.dt.dayofweek] element by element. *)
Definition weekday (t : Timestamp) : Z := weekday_of_day (day_number t).

(** Midnight of day number [d], and a time of day added to it. *)
Definition date (d : Z) : Timestamp := timedelta_days d.
Definition at_time (d hours : Z) : Timestamp := date d + hours * 3600000000000.

(** ** The history table

    A [DataFrame] is read through its date column only, so a history is the
    list of the dates of its rows, in row order.  The column has the dtype
    [datetime64[ns]]; the empty column of another dtype comes with
    [TypedFrame] below. *)

Definition DataFrame : Type := list Timestamp.

(** [history.sort_values(DFCols.DATE)], seen through the date column: the
    dates in ascending order. *)
Definition sort_values (history : DataFrame) : DataFrame :=
  merge_sort Z.le history.

(** [Series.min()] and [Series.max()] of a date column of dtype
    [datetime64[ns]].  On an empty column pandas answers [NaT], here
    [None]. *)
Definition col_min (d : Timestamp) (ds : list Timestamp) : Timestamp :=
  foldl Z.min d ds.
Definition col_max (d : Timestamp) (ds : list Timestamp) : Timestamp :=
  foldl Z.max d ds.

Definition series_min (col : DataFrame) : option Timestamp :=
  match col with
  | [] => None
  | d :: ds => Some (col_min d ds)
  end.
Definition series_max (col : DataFrame) : option Timestamp :=
  match col with
  | [] => None
  | d :: ds => Some (col_max d ds)
  end.

(** [(a - b).days] on values that may be [NaT]: [NaT - NaT] is [NaT], and
    [NaT.days] is the float [NaN], here [None]. *)
Definition sub_days (a b : option Timestamp) : option Z :=
  match a, b with
  | Some x, Some y => Some (days (x - y))
  | _, _ => None
  end.

(** [Series.value_counts().to_dict()]: how often each value occurs; values
    that do not occur have no key. *)
Definition value_counts (xs : list Z) : gmap Z Z :=
  foldr (fun x m => <[x := default 0 (m !! x) + 1]> m) ∅ xs.

(** [range(n)]. *)
Definition range (n : nat) : list Z := Z.of_nat <$> seq 0 n.

(** ** numpy reductions on a list of Python ints

    [np.mean] and [np.std] convert the list to an array of 64-bit integers
    and accumulate in binary64: the mean is the sum over the length, the
    standard deviation is the square root of the mean of the squared
    deviations from the mean (population form, [ddof = 0]).

    The order of the additions is that of numpy's [add.reduce].  Its inner
    loop, [pairwise_sum], adds a run of fewer than eight numbers from left
    to right; a run of up to 128 numbers goes into eight accumulators, the
    number at position [i] into accumulator [i mod 8], as long as whole
    blocks of eight are left, the accumulators are added as
    [((r0 + r1) + (r2 + r3)) + ((r4 + r5) + (r6 + r7))] and what is left
    of the run is added to that from left to right; a longer run is cut
    at half its length, rounded down to a multiple of eight, and the sums
    of the two parts are added.  The reduction starts from [0.0] and adds
    the sum of the run; none of the sums taken here is [-0.0], so the
    sign of that zero does not show. *)

Record Accumulators := {
  r0 : float; r1 : float; r2 : float; r3 : float;
  r4 : float; r5 : float; r6 : float; r7 : float
}.

(** The loop over the whole blocks of eight, and what it leaves. *)
Fixpoint accumulate (r : Accumulators) (a : list float)
    : Accumulators * list float :=
  match a with
  | a0 :: a1 :: a2 :: a3 :: a4 :: a5 :: a6 :: a7 :: rest =>
      accumulate {| r0 := Float64.add (r0 r) a0; r1 := Float64.add (r1 r) a1;
                    r2 := Float64.add (r2 r) a2; r3 := Float64.add (r3 r) a3;
                    r4 := Float64.add (r4 r) a4; r5 := Float64.add (r5 r) a5;
                    r6 := Float64.add (r6 r) a6; r7 := Float64.add (r7 r) a7 |}
                 rest
  | _ => (r, a)
  end.

(** [pairwise_sum] on a run of at most 128 numbers. *)
Definition pairwise_sum_block (a : list float) : float :=
  match a with
  | a0 :: a1 :: a2 :: a3 :: a4 :: a5 :: a6 :: a7 :: rest =>
      let '(r, rest) :=
        accumulate {| r0 := a0; r1 := a1; r2 := a2; r3 := a3;
                      r4 := a4; r5 := a5; r6 := a6; r7 := a7 |} rest in
      let res :=
        Float64.add
          (Float64.add (Float64.add (r0 r) (r1 r)) (Float64.add (r2 r) (r3 r)))
          (Float64.add (Float64.add (r4 r) (r5 r)) (Float64.add (r6 r) (r7 r))) in
      foldl Float64.add res rest
  | _ => foldl Float64.add Float64.zero a
  end.

(** Where a run of [n > 128] numbers is cut: [n2 = n / 2; n2 -= n2 % 8]. *)
Definition pairwise_cut (n : nat) : nat := (n / 2 - (n / 2) mod 8)%nat.

Equations? pairwise_sum (a : list float) : float by wf (length a) lt :=
pairwise_sum a with decide (length a <= 128)%nat := {
  | left _ => pairwise_sum_block a
  | right _ =>
      Float64.add (pairwise_sum (take (pairwise_cut (length a)) a))
                  (pairwise_sum (drop (pairwise_cut (length a)) a)) }.
Proof.
  - rewrite length_take. unfold pairwise_cut.
    pose proof (Nat.div_mod_eq (length a) 2).
    pose proof (Nat.mod_upper_bound (length a) 2).
    lia.
  - rewrite length_drop. unfold pairwise_cut.
    pose proof (Nat.div_mod_eq (length a) 2).
    pose proof (Nat.mod_upper_bound (length a) 2).
    pose proof (Nat.div_mod_eq (length a / 2) 8).
    pose proof (Nat.mod_upper_bound (length a / 2) 8).
    lia.
Qed.

(** [np.add.reduce] of an array of binary64 numbers. *)
Definition np_sum (xs : list float) : float :=
  Float64.add Float64.zero (pairwise_sum xs).

(** The integers of an array are converted to binary64 through a buffer of
    [NPY_BUFSIZE] elements, and the inner loop runs once for each filling
    of the buffer. *)
Definition NPY_BUFSIZE : nat := Z.to_nat 8192.

Fixpoint buffers (fuel : nat) (xs : list Z) : list (list Z) :=
  match fuel, xs with
  | S fuel, _ :: _ => take NPY_BUFSIZE xs :: buffers fuel (drop NPY_BUFSIZE xs)
  | _, _ => []
  end.

(** [np.add.reduce(arr, dtype=float64)] of an array of 64-bit integers. *)
Definition np_sum_int (xs : list Z) : float :=
  foldl (fun res buffer =>
           Float64.add res (pairwise_sum (Float64.of_int <$> buffer)))
        Float64.zero (buffers (length xs) xs).

Definition np_mean (xs : list Z) : float :=
  Float64.div (np_sum_int xs) (Float64.of_int (Z.of_nat (length xs))).

Definition np_std (xs : list Z) : float :=
  let arrmean := np_mean xs in
  let x := (fun v => Float64.sub (Float64.of_int v) arrmean) <$> xs in
  let x := (fun d => Float64.mul d d) <$> x in
  Float64.sqrt (Float64.div (np_sum x) (Float64.of_int (Z.of_nat (length xs)))).

(** ** Data model *)

Record WeekdayInfo := {
  occurrence_count : Z;
  occurrence_rate : float;
  total_opportunities : Z
}.

Record EntityStats := {
  weekday_stats : gmap Z WeekdayInfo;
  stddev_gap_between_events : float;
  periodicity_score : float;
  total_events : nat;
  history_span_days : option Z
}.

Record FeatureVector := {
  weekday_occurrence_rate : float;
  weekday_occurrence_count : Z;
  fv_stddev_gap_between_events : float;
  fv_periodicity_score : float;
  week_of_month : float
}.

(** The reason of a decision is one of three message templates, kept with
    the values that the template interpolates. *)
Inductive Reason :=
  | InsufficientSample (count min_count : Z)
  | RateTooLow (rate min_rate : float)
  | PredictionAuthorized (rate : float) (count : Z).

(** Debug messages handed to the logger. *)
Inductive LogMsg :=
  | LogCacheHit (entity_id : string)
  | LogComputeStats (entity_id : string) (events : nat)
  | LogCacheCleared (entity_id : string)
  | LogCacheClearedAll.

(** The extractor: its only state is the cache. *)
Record OccurrenceFeatureExtractor := {
  _cache : gmap string EntityStats
}.

(** [create_occurrence_extractor()]: an extractor with an empty cache. *)
Definition create_occurrence_extractor : OccurrenceFeatureExtractor :=
  {| _cache := ∅ |}.

(** ** Weekday statistics *)

(** The loop of [_count_weekdays_in_range]: [current] walks from
    [start_date] in steps of one day while it is not after [end_date]. *)
Equations? count_loop (current end_date : Timestamp) (target_weekday count : Z) : Z
  by wf (Z.to_nat (days (end_date - current) + 1)) lt :=
  count_loop current end_date target_weekday count
    with decide (current <= end_date) => {
    | left _ =>
        count_loop (current + timedelta_days 1) end_date target_weekday
          (if decide (weekday current = target_weekday) then count + 1 else count);
    | right _ => count }.
Proof.
  unfold days, timedelta_days.
  replace (end_date - (current + 1 * NS_PER_DAY))
    with ((end_date - current) + (-1) * NS_PER_DAY) by lia.
  rewrite Z.div_add by (unfold NS_PER_DAY; lia).
  assert (0 <= (end_date - current) / NS_PER_DAY)
    by (apply Z.div_pos; unfold NS_PER_DAY; lia).
  lia.
Qed.

Definition _count_weekdays_in_range
    (start_date end_date : Timestamp) (target_weekday : Z) : Z :=
  count_loop start_date end_date target_weekday 0.

(** One round of the loop over [range(7)]: the entry of one weekday. *)
Definition weekday_entry (weekday_counts : gmap Z Z)
    (min_date max_date : Timestamp) (wd : Z) : option WeekdayInfo :=
  let occurrence_count := default 0 (weekday_counts !! wd) in
  let total_opportunities := _count_weekdays_in_range min_date max_date wd in
  occurrence_rate ←
    (if decide (0 < total_opportunities)
     then py_truediv occurrence_count total_opportunities
     else Some Float64.zero);
  Some {| occurrence_count := occurrence_count;
          occurrence_rate := occurrence_rate;
          total_opportunities := total_opportunities |}.

Fixpoint weekday_loop (weekday_counts : gmap Z Z)
    (min_date max_date : Timestamp) (wds : list Z)
    (weekday_stats : gmap Z WeekdayInfo) : option (gmap Z WeekdayInfo) :=
  match wds with
  | [] => Some weekday_stats
  | wd :: wds =>
      info ← weekday_entry weekday_counts min_date max_date wd;
      weekday_loop weekday_counts min_date max_date wds (<[wd := info]> weekday_stats)
  end.

Definition _compute_weekday_stats (history : DataFrame)
    : option (gmap Z WeekdayInfo) :=
  match history with
  | [] => Some ∅
  | d :: ds =>
      let weekday_counts := value_counts (weekday <$> history) in
      let min_date := col_min d ds in
      let max_date := col_max d ds in
      weekday_loop weekday_counts min_date max_date (range 7) ∅
  end.

(** ** Gaps and periodicity *)

Definition _compute_gaps_between_events (history : DataFrame) : list Z :=
  if decide (length history < 2)%nat then []
  else
    let dates := history in
    foldl (fun gaps i =>
             let gap := days (nth i dates 0 - nth (i - 1) dates 0) in
             if decide (0 < gap) then gaps ++ [gap] else gaps)
          [] (seq 1 (length dates - 1)).

Definition _compute_periodicity_score (gaps : list Z) : float :=
  if decide (length gaps < 3)%nat then Float64.zero
  else
    let mean_gap := np_mean gaps in
    let std_gap := np_std gaps in
    if Float64.eqb mean_gap (Float64.of_int 0) then Float64.zero
    else
      let cv := Float64.div std_gap mean_gap in
      Float64.div Float64.one (Float64.add Float64.one cv).

(** ** The cached statistics of an entity *)

(** The cache key [f"{entity_id}_{len(history)}"]. *)
Definition cache_key (entity_id : string) (n : nat) : string :=
  entity_id +:+ "_" +:+ pretty n.

(** The statistics that a cache miss computes from the history.  [None]
    stands for an exception that propagates to the caller. *)
Definition fresh_stats (history : DataFrame) : option EntityStats :=
  let history_sorted := sort_values history in
  weekday_stats ← _compute_weekday_stats history_sorted;
  let gaps := _compute_gaps_between_events history_sorted in
  let stddev_gap :=
    if decide (1 < length gaps)%nat then np_std gaps else Float64.zero in
  let periodicity_score := _compute_periodicity_score gaps in
  Some {| weekday_stats := weekday_stats;
          stddev_gap_between_events := stddev_gap;
          periodicity_score := periodicity_score;
          total_events := length history;
          history_span_days :=
            sub_days (series_max history_sorted) (series_min history_sorted) |}.

(** [compute_entity_stats]: the result, the extractor after the call and
    the debug message of the call. *)
Definition compute_entity_stats (self : OccurrenceFeatureExtractor)
    (entity_id : string) (history : DataFrame)
    : option (EntityStats * OccurrenceFeatureExtractor * list LogMsg) :=
  let key := cache_key entity_id (length history) in
  match _cache self !! key with
  | Some stats => Some (stats, self, [LogCacheHit entity_id])
  | None =>
      stats ← fresh_stats history;
      Some (stats,
            {| _cache := <[key := stats]> (_cache self) |},
            [LogComputeStats entity_id (length history)])
  end.

(** ** Features and decision *)

(** The stand-in of [extract_features] for a weekday without statistics. *)
Definition absent_weekday_info : WeekdayInfo :=
  {| occurrence_count := 0;
     occurrence_rate := Float64.zero;
     total_opportunities := 0 |}.

Section Features.

(** [get_week_of_month] of [core.utils.temporal_features], a date utility
    outside this module. *)
Variable get_week_of_month : Timestamp -> Z.

Definition extract_features (self : OccurrenceFeatureExtractor)
    (entity_id : string) (target_date : Timestamp) (history : DataFrame)
    : option (FeatureVector * OccurrenceFeatureExtractor * list LogMsg) :=
  '(stats, self, logs) ← compute_entity_stats self entity_id history;
  let wd := weekday target_date in
  let wom := get_week_of_month target_date in
  let weekday_info := default absent_weekday_info (weekday_stats stats !! wd) in
  Some ({| weekday_occurrence_rate := occurrence_rate weekday_info;
           weekday_occurrence_count := occurrence_count weekday_info;
           fv_stddev_gap_between_events := stddev_gap_between_events stats;
           fv_periodicity_score := periodicity_score stats;
           week_of_month := Float64.of_int wom |},
        self, logs).

Definition should_predict_event (self : OccurrenceFeatureExtractor)
    (entity_id : string) (target_date : Timestamp) (history : DataFrame)
    (min_occurrence_count : Z) (min_occurrence_rate : float)
    : option (bool * float * Reason * OccurrenceFeatureExtractor * list LogMsg) :=
  '(features, self, logs) ← extract_features self entity_id target_date history;
  let occurrence_count := weekday_occurrence_count features in
  let occurrence_rate := weekday_occurrence_rate features in
  if decide (occurrence_count < min_occurrence_count) then
    Some (false, Float64.zero,
          InsufficientSample occurrence_count min_occurrence_count, self, logs)
  else if Float64.ltb occurrence_rate min_occurrence_rate then
    Some (false, occurrence_rate,
          RateTooLow occurrence_rate min_occurrence_rate, self, logs)
  else
    Some (true, occurrence_rate,
          PredictionAuthorized occurrence_rate occurrence_count, self, logs).

End Features.

(** The defaults of [should_predict_event]: [min_occurrence_count = 2] and
    [min_occurrence_rate = 0.15], the binary64 number nearest to 0.15. *)
Definition default_min_occurrence_count : Z := 2.
Definition default_min_occurrence_rate : float :=
  Float64.div (Float64.of_int 15) (Float64.of_int 100).

(** ** Cache administration *)

(** [k.startswith(entity_id)]. *)
Definition startswith (k entity_id : string) : bool := String.prefix entity_id k.

(** [k.split('_')[0]]: the text before the first underscore, the whole of
    [k] when it has none. *)
Fixpoint first_segment (k : string) : string :=
  match k with
  | EmptyString => EmptyString
  | String c rest =>
      if Ascii.eqb c "_" then EmptyString else String c (first_segment rest)
  end.

(** The keys of the cache, [self._cache.keys()]. *)
Definition cache_keys (self : OccurrenceFeatureExtractor) : list string :=
  (map_to_list (_cache self)).*1.

(** [clear_cache(entity_id)].  The test [if entity_id] fails for [None]
    and for the empty string alike. *)
Definition clear_cache (self : OccurrenceFeatureExtractor)
    (entity_id : option string) : OccurrenceFeatureExtractor * list LogMsg :=
  match entity_id with
  | Some (String c rest as entity_id) =>
      let keys_to_remove :=
        filter (fun k => startswith k entity_id = true) (cache_keys self) in
      ({| _cache := foldl (fun cache key => delete key cache)
                          (_cache self) keys_to_remove |},
       [LogCacheCleared entity_id])
  | _ => ({| _cache := ∅ |}, [LogCacheClearedAll])
  end.

Record CacheStats := {
  cache_size : nat;
  cached_entities : nat
}.

Definition get_cache_stats (self : OccurrenceFeatureExtractor) : CacheStats :=
  {| cache_size := size (_cache self);
     cached_entities :=
       size (list_to_set (first_segment <$> cache_keys self) : gset string) |}.

(** ** The dtype of the date column

    The functions above read a frame whose date column has the dtype
    [datetime64[ns]], which a column of timestamps has with or without
    rows.  A frame that is made without rows and without a dtype for its
    columns, as [pd.DataFrame(columns=[...])] is, has a date column of
    dtype [object].  It has no rows, so [_compute_weekday_stats] and
    [_compute_gaps_between_events] return before they read the column; but
    [max()] and [min()] of the column are the float [nan] and not [NaT],
    their difference is a float, a float has no attribute [days], and
    [compute_entity_stats] raises [AttributeError] where it computes the
    span.  The functions below are the ones above with the dtype of the
    date column made explicit. *)

Inductive TypedFrame :=
  | Datetime64 (dates : DataFrame)
  | EmptyObject.

(** The rows of a frame, and [len(history)]. *)
Definition typed_dates (history : TypedFrame) : DataFrame :=
  match history with
  | Datetime64 dates => dates
  | EmptyObject => []
  end.

(** [history.sort_values(DFCols.DATE)] keeps the dtype of the column. *)
Definition typed_sort_values (history : TypedFrame) : TypedFrame :=
  match history with
  | Datetime64 dates => Datetime64 (sort_values dates)
  | EmptyObject => EmptyObject
  end.

(** [(history[DFCols.DATE].max() - history[DFCols.DATE].min()).days].  The
    outer [None] is the [AttributeError]; the inner one is the float [NaN]
    that [NaT.days] is. *)
Definition typed_span_days (history : TypedFrame) : option (option Z) :=
  match history with
  | Datetime64 dates => Some (sub_days (series_max dates) (series_min dates))
  | EmptyObject => None
  end.

Definition fresh_stats_typed (history : TypedFrame) : option EntityStats :=
  let history_sorted := typed_sort_values history in
  weekday_stats ← _compute_weekday_stats (typed_dates history_sorted);
  let gaps := _compute_gaps_between_events (typed_dates history_sorted) in
  let stddev_gap :=
    if decide (1 < length gaps)%nat then np_std gaps else Float64.zero in
  let periodicity_score := _compute_periodicity_score gaps in
  span ← typed_span_days history_sorted;
  Some {| weekday_stats := weekday_stats;
          stddev_gap_between_events := stddev_gap;
          periodicity_score := periodicity_score;
          total_events := length (typed_dates history);
          history_span_days := span |}.

Definition compute_entity_stats_typed (self : OccurrenceFeatureExtractor)
    (entity_id : string) (history : TypedFrame)
    : option (EntityStats * OccurrenceFeatureExtractor * list LogMsg) :=
  let key := cache_key entity_id (length (typed_dates history)) in
  match _cache self !! key with
  | Some stats => Some (stats, self, [LogCacheHit entity_id])
  | None =>
      stats ← fresh_stats_typed history;
      Some (stats,
            {| _cache := <[key := stats]> (_cache self) |},
            [LogComputeStats entity_id (length (typed_dates history))])
  end.

Section TypedFeatures.

Variable get_week_of_month : Timestamp -> Z.

Definition extract_features_typed (self : OccurrenceFeatureExtractor)
    (entity_id : string) (target_date : Timestamp) (history : TypedFrame)
    : option (FeatureVector * OccurrenceFeatureExtractor * list LogMsg) :=
  '(stats, self, logs) ← compute_entity_stats_typed self entity_id history;
  let wd := weekday target_date in
  let wom := get_week_of_month target_date in
  let weekday_info := default absent_weekday_info (weekday_stats stats !! wd) in
  Some ({| weekday_occurrence_rate := occurrence_rate weekday_info;
           weekday_occurrence_count := occurrence_count weekday_info;
           fv_stddev_gap_between_events := stddev_gap_between_events stats;
           fv_periodicity_score := periodicity_score stats;
           week_of_month := Float64.of_int wom |},
        self, logs).

Definition should_predict_event_typed (self : OccurrenceFeatureExtractor)
    (entity_id : string) (target_date : Timestamp) (history : TypedFrame)
    (min_occurrence_count : Z) (min_occurrence_rate : float)
    : option (bool * float * Reason * OccurrenceFeatureExtractor * list LogMsg) :=
  '(features, self, logs) ←
    extract_features_typed self entity_id target_date history;
  let occurrence_count := weekday_occurrence_count features in
  let occurrence_rate := weekday_occurrence_rate features in
  if decide (occurrence_count < min_occurrence_count) then
    Some (false, Float64.zero,
          InsufficientSample occurrence_count min_occurrence_count, self, logs)
  else if Float64.ltb occurrence_rate min_occurrence_rate then
    Some (false, occurrence_rate,
          RateTooLow occurrence_rate min_occurrence_rate, self, logs)
  else
    Some (true, occurrence_rate,
          PredictionAuthorized occurrence_rate occurrence_count, self, logs).

End TypedFeatures.

(** ** Reference notions

    What the statements below compare the code with. *)

(** The number of the calendar dates from [first_day] to [last_day], both
    included, that fall on weekday [w]. *)
Definition calendar_dates_on_weekday (first_day last_day w : Z) : Z :=
  Z.of_nat (length (filter (fun d => weekday_of_day d = w)
                           (seqZ first_day (last_day - first_day + 1)))).

(** The whole-day differences between neighbours of a list of dates. *)
Fixpoint consecutive_day_gaps (dates : list Timestamp) : list Z :=
  match dates with
  | a :: (b :: _) as rest => days (b - a) :: consecutive_day_gaps rest
  | _ => []
  end.

(** The events of a history that fall on weekday [w]. *)
Definition events_on_weekday (w : Z) (history : DataFrame) : list Timestamp :=
  filter (fun t => weekday t = w) history.

(** The entry of weekday [w] in the statistics that a call of
    [compute_entity_stats] returned. *)
Definition returned_weekday_info
    (r : option (EntityStats * OccurrenceFeatureExtractor * list LogMsg))
    (w : Z) : option WeekdayInfo :=
  '(stats, _, _) ← r; weekday_stats stats !! w.

(** Whether a string holds the separator of the cache key. *)
Fixpoint has_separator (s : string) : bool :=
  match s with
  | EmptyString => false
  | String c rest => Ascii.eqb c "_" || has_separator rest
  end.

(** The extractors that a program can hold: a new one, and what the methods
    that touch the cache make of one. *)
Inductive reachable : OccurrenceFeatureExtractor -> Prop :=
  | reachable_create : reachable create_occurrence_extractor
  | reachable_compute self entity_id history stats self' logs :
      reachable self ->
      compute_entity_stats self entity_id history = Some (stats, self', logs) ->
      reachable self'
  | reachable_clear self entity_id :
      reachable self -> reachable (clear_cache self entity_id).1.

(** The extractor that results from calling [compute_entity_stats] on a new
    extractor for each of [entities] in turn, with the same history. *)
Definition extractor_after (entities : list string) (history : DataFrame)
    : option OccurrenceFeatureExtractor :=
  foldl (fun acc entity_id =>
           self ← acc;
           '(_, self', _) ← compute_entity_stats self entity_id history;
           Some self')
        (Some create_occurrence_extractor) entities.

(** Every entry of the cache is what a miss computes from some history of
    the length that its key names. *)
Definition cache_consistent (self : OccurrenceFeatureExtractor) : Prop :=
  forall entity_id n stats,
    _cache self !! cache_key entity_id n = Some stats ->
    exists history, length history = n /\ fresh_stats history = Some stats.

(** The sum of a field of the weekday entries over the weekdays 0..6; a
    weekday without entry counts as 0. *)
Definition sum_over_weekdays (field : WeekdayInfo -> Z)
    (stats : gmap Z WeekdayInfo) : Z :=
  foldr (fun w acc => field (default absent_weekday_info (stats !! w)) + acc)
        0 (range 7).

(** The sum of a list of gaps. *)
Definition sum_gaps (gaps : list Z) : Z := foldr Z.add 0 gaps.

(** Whether a call of [should_predict_event] returned and what it decided. *)
Definition decision_of
    (r : option (bool * float * Reason * OccurrenceFeatureExtractor * list LogMsg))
    : option bool :=
  (fun x => x.1.1.1.1) <$> r.

(** The extractor that results from calling [compute_entity_stats] on a new
    extractor for each entity and history of [calls] in turn. *)
Definition extractor_after_calls (calls : list (string * DataFrame))
    : option OccurrenceFeatureExtractor :=
  foldl (fun acc call =>
           self ← acc;
           '(_, self', _) ← compute_entity_stats self call.1 call.2;
           Some self')
        (Some create_occurrence_extractor) calls.

(** The statistics that a call of [compute_entity_stats] returned. *)
Definition returned_stats
    (r : option (EntityStats * OccurrenceFeatureExtractor * list LogMsg))
    : option EntityStats :=
  (fun x => x.1.1) <$> r.

(** * Properties *)

(** ** Calendar arithmetic *)

Lemma NS_PER_DAY_pos : 0 < NS_PER_DAY.
Proof. unfold NS_PER_DAY. lia. Qed.

Lemma timestamp_split t : t = NS_PER_DAY * day_number t + time_of_day t.
Proof. unfold day_number, time_of_day. apply Z.div_mod. pose proof NS_PER_DAY_pos. lia. Qed.

Lemma time_of_day_range t : 0 <= time_of_day t < NS_PER_DAY.
Proof. apply Z.mod_pos_bound, NS_PER_DAY_pos. Qed.

Lemma day_number_mono t u : t <= u -> day_number t <= day_number u.
Proof. intros. apply Z.div_le_mono; [apply NS_PER_DAY_pos | done]. Qed.

Lemma day_number_next t : day_number (t + timedelta_days 1) = day_number t + 1.
Proof.
  unfold day_number, timedelta_days.
  rewrite Z.div_add by (unfold NS_PER_DAY; lia). lia.
Qed.

Lemma day_number_date d : day_number (date d) = d.
Proof. unfold day_number, date, timedelta_days. apply Z.div_mul. unfold NS_PER_DAY; lia. Qed.

Lemma time_of_day_date d : time_of_day (date d) = 0.
Proof. unfold time_of_day, date, timedelta_days. apply Z.mod_mul. unfold NS_PER_DAY; lia. Qed.

Lemma weekday_range t : 0 <= weekday t < 7.
Proof. unfold weekday, weekday_of_day. apply Z.mod_pos_bound. lia. Qed.

Lemma weekday_of_day_shift d q : weekday_of_day (d + 7 * q) = weekday_of_day d.
Proof.
  unfold weekday_of_day.
  replace (d + 7 * q + 3) with (d + 3 + q * 7) by lia.
  apply Z_mod_plus_full.
Qed.

(** Whole days between two timestamps against the difference of their
    calendar dates: equal unless the later one has the earlier time of
    day, and then one less. *)
Lemma days_between t u :
  days (u - t) =
  if decide (time_of_day t <= time_of_day u)
  then day_number u - day_number t
  else day_number u - day_number t - 1.
Proof.
  pose proof (timestamp_split t) as Ht. pose proof (timestamp_split u) as Hu.
  pose proof (time_of_day_range t). pose proof (time_of_day_range u).
  pose proof NS_PER_DAY_pos.
  unfold days. symmetry. destruct (decide _).
  - apply (Z.div_unique_pos _ _ _ (time_of_day u - time_of_day t)); lia.
  - apply (Z.div_unique_pos _ _ _ (time_of_day u - time_of_day t + NS_PER_DAY)); lia.
Qed.

Lemma days_next_le current end_date :
  current <= end_date ->
  days (end_date - (current + timedelta_days 1)) = days (end_date - current) - 1
  /\ 0 <= days (end_date - current).
Proof.
  intros Hle. unfold days, timedelta_days. split.
  - replace (end_date - (current + 1 * NS_PER_DAY))
      with ((end_date - current) + (-1) * NS_PER_DAY) by lia.
    rewrite Z.div_add by (unfold NS_PER_DAY; lia). lia.
  - apply Z.div_pos; [lia | apply NS_PER_DAY_pos].
Qed.

Lemma days_neg current end_date :
  end_date < current -> days (end_date - current) < 0.
Proof.
  intros Hlt. unfold days.
  apply Z.div_lt_upper_bound; [apply NS_PER_DAY_pos | lia].
Qed.

(** ** Counting weekdays in a range *)

Lemma count_loop_step current end_date w c :
  count_loop current end_date w c =
  if decide (current <= end_date)
  then count_loop (current + timedelta_days 1) end_date w
         (if decide (weekday current = w) then c + 1 else c)
  else c.
Proof.
  rewrite count_loop_equation_1.
  destruct (decide (current <= end_date)); simp count_loop; reflexivity.
Qed.

(** The loop runs [days (end_date - current) + 1] times when [current] is
    not after [end_date], and looks at as many consecutive calendar
    dates. *)
Lemma count_loop_spec (n : nat) : forall current end_date w c,
  n = Z.to_nat (days (end_date - current) + 1) ->
  count_loop current end_date w c
  = c + Z.of_nat (length (filter (fun d => weekday_of_day d = w)
                                 (seqZ (day_number current) (Z.of_nat n)))).
Proof.
  induction n as [|n IH]; intros current end_date w c Hn;
    rewrite count_loop_step; destruct (decide (current <= end_date)) as [Hle|Hgt].
  - destruct (days_next_le _ _ Hle). lia.
  - simpl. lia.
  - destruct (days_next_le _ _ Hle) as [Hd Hpos].
    rewrite (IH (current + timedelta_days 1) end_date) by lia.
    rewrite day_number_next.
    rewrite Nat2Z.inj_succ, (seqZ_cons (day_number current)) by lia.
    replace (Z.pred (Z.succ (Z.of_nat n))) with (Z.of_nat n) by lia.
    rewrite filter_cons. unfold weekday, Z.succ.
    destruct (decide (weekday_of_day (day_number current) = w)); simpl; lia.
  - pose proof (days_neg current end_date). lia.
Qed.

Lemma _count_weekdays_in_range_spec start_date end_date w :
  start_date <= end_date ->
  _count_weekdays_in_range start_date end_date w
  = calendar_dates_on_weekday (day_number start_date)
      (day_number start_date + days (end_date - start_date)) w.
Proof.
  intros Hle. unfold _count_weekdays_in_range, calendar_dates_on_weekday.
  rewrite (count_loop_spec _ _ _ _ _ eq_refl).
  pose proof (days_next_le _ _ Hle) as [_ Hpos].
  rewrite Z2Nat.id by lia.
  replace (day_number start_date + days (end_date - start_date)
           - day_number start_date + 1)
    with (days (end_date - start_date) + 1) by lia.
  lia.
Qed.

Lemma _count_weekdays_in_range_calendar start_date end_date w :
  start_date <= end_date ->
  time_of_day start_date <= time_of_day end_date ->
  _count_weekdays_in_range start_date end_date w
  = calendar_dates_on_weekday (day_number start_date) (day_number end_date) w.
Proof.
  intros Hle Htod. rewrite _count_weekdays_in_range_spec by done.
  rewrite days_between, decide_True by done. f_equal. lia.
Qed.

Lemma calendar_dates_on_weekday_nonneg a b w :
  0 <= calendar_dates_on_weekday a b w.
Proof. unfold calendar_dates_on_weekday. lia. Qed.

(** Fourteen consecutive calendar dates hold every weekday twice. *)
Lemma filter_weekday_shift w q n a :
  length (filter (fun d => weekday_of_day d = w) (seqZ (a + 7 * q) n))
  = length (filter (fun d => weekday_of_day d = w) (seqZ a n)).
Proof.
  replace (a + 7 * q) with (7 * q + a) by lia.
  rewrite <- (fmap_add_seqZ (7 * q) a n).
  induction (seqZ a n) as [|x l IH]; [done|].
  rewrite fmap_cons, !filter_cons.
  replace (7 * q + x) with (x + 7 * q) by lia.
  rewrite weekday_of_day_shift.
  destruct (decide (weekday_of_day x = w)); simpl; rewrite IH; done.
Qed.

Lemma two_weeks_of_dates first_day w :
  0 <= w < 7 ->
  calendar_dates_on_weekday first_day (first_day + 13) w = 2.
Proof.
  intros Hw. unfold calendar_dates_on_weekday.
  replace (first_day + 13 - first_day + 1) with 14 by lia.
  rewrite (Z.div_mod first_day 7) at 1 by lia.
  replace (7 * (first_day `div` 7) + first_day `mod` 7)
    with (first_day `mod` 7 + 7 * (first_day `div` 7)) by lia.
  rewrite filter_weekday_shift.
  pose proof (Z.mod_pos_bound first_day 7 ltac:(lia)) as Hr.
  assert (Hcases : forall r, 0 <= r < 7 ->
            r = 0 \/ r = 1 \/ r = 2 \/ r = 3 \/ r = 4 \/ r = 5 \/ r = 6) by lia.
  destruct (Hcases _ Hr) as [->|[->|[->|[->|[->|[->| ->]]]]]];
    destruct (Hcases _ Hw) as [->|[->|[->|[->|[->|[->| ->]]]]]];
    vm_compute; reflexivity.
Qed.

(** ** The date column *)

Lemma col_min_spec d ds :
  col_min d ds ∈ d :: ds /\ forall x, x ∈ d :: ds -> col_min d ds <= x.
Proof.
  unfold col_min. revert d. induction ds as [|y ds IH]; intros d; simpl.
  - split; [apply list_elem_of_here|].
    intros x ->%list_elem_of_singleton. lia.
  - destruct (IH (Z.min d y)) as [Hin Hle].
    assert (foldl Z.min (Z.min d y) ds <= Z.min d y)
      by apply Hle, list_elem_of_here.
    split.
    + rewrite !elem_of_cons in *. destruct Hin as [Hin|Hin]; [|auto].
      rewrite Hin. destruct (Z.min_spec d y) as [[_ ->]|[_ ->]]; auto.
    + intros x. rewrite !elem_of_cons. intros [->|[->|Hx]]; [lia|lia|].
      by apply Hle, list_elem_of_further.
Qed.

Lemma col_max_spec d ds :
  col_max d ds ∈ d :: ds /\ forall x, x ∈ d :: ds -> x <= col_max d ds.
Proof.
  unfold col_max. revert d. induction ds as [|y ds IH]; intros d; simpl.
  - split; [apply list_elem_of_here|].
    intros x ->%list_elem_of_singleton. lia.
  - destruct (IH (Z.max d y)) as [Hin Hle].
    assert (Z.max d y <= foldl Z.max (Z.max d y) ds)
      by apply Hle, list_elem_of_here.
    split.
    + rewrite !elem_of_cons in *. destruct Hin as [Hin|Hin]; [|auto].
      rewrite Hin. destruct (Z.max_spec d y) as [[_ ->]|[_ ->]]; auto.
    + intros x. rewrite !elem_of_cons. intros [->|[->|Hx]]; [lia|lia|].
      by apply Hle, list_elem_of_further.
Qed.

Lemma series_min_spec col m :
  series_min col = Some m -> m ∈ col /\ forall x, x ∈ col -> m <= x.
Proof. destruct col; [done|]. intros [= <-]. apply col_min_spec. Qed.

Lemma series_max_spec col m :
  series_max col = Some m -> m ∈ col /\ forall x, x ∈ col -> x <= m.
Proof. destruct col; [done|]. intros [= <-]. apply col_max_spec. Qed.

Lemma series_min_Permutation col col' :
  col ≡ₚ col' -> series_min col = series_min col'.
Proof.
  intros Hp. destruct col as [|d ds], col' as [|d' ds']; simpl.
  - done.
  - by apply Permutation_nil_cons in Hp.
  - symmetry in Hp. by apply Permutation_nil_cons in Hp.
  - destruct (col_min_spec d ds) as [Hin Hle], (col_min_spec d' ds') as [Hin' Hle'].
    f_equal. apply Z.le_antisymm.
    + apply Hle. by rewrite Hp.
    + apply Hle'. by rewrite <- Hp.
Qed.

Lemma series_max_Permutation col col' :
  col ≡ₚ col' -> series_max col = series_max col'.
Proof.
  intros Hp. destruct col as [|d ds], col' as [|d' ds']; simpl.
  - done.
  - by apply Permutation_nil_cons in Hp.
  - symmetry in Hp. by apply Permutation_nil_cons in Hp.
  - destruct (col_max_spec d ds) as [Hin Hle], (col_max_spec d' ds') as [Hin' Hle'].
    f_equal. apply Z.le_antisymm.
    + apply Hle'. by rewrite <- Hp.
    + apply Hle. by rewrite Hp.
Qed.

Lemma sort_values_Permutation history : sort_values history ≡ₚ history.
Proof. apply merge_sort_Permutation. Qed.

Lemma sort_values_Sorted history : Sorted Z.le (sort_values history).
Proof. apply (Sorted_merge_sort Z.le). Qed.

Lemma sort_values_length history : length (sort_values history) = length history.
Proof. by rewrite sort_values_Permutation. Qed.

(** ** Counting occurrences *)

Lemma value_counts_lookup xs w :
  default 0 (value_counts xs !! w) = Z.of_nat (length (filter (fun x => x = w) xs)).
Proof.
  induction xs as [|x xs IH]; [done|].
  unfold value_counts in *. simpl. rewrite filter_cons.
  destruct (decide (x = w)) as [->|Hne].
  - rewrite lookup_insert_eq. simpl. lia.
  - rewrite lookup_insert_ne by done. apply IH.
Qed.

Lemma weekday_counts_lookup history w :
  default 0 (value_counts (weekday <$> history) !! w)
  = Z.of_nat (length (events_on_weekday w history)).
Proof.
  rewrite value_counts_lookup. unfold events_on_weekday. f_equal.
  induction history as [|t h IH]; [done|].
  rewrite fmap_cons, filter_cons, (filter_cons (fun t => weekday t = w)).
  destruct (decide (weekday t = w)); simpl; by rewrite IH.
Qed.

Lemma events_on_weekday_Permutation w h h' :
  h ≡ₚ h' -> length (events_on_weekday w h) = length (events_on_weekday w h').
Proof. intros Hp. unfold events_on_weekday. by rewrite Hp. Qed.

(** ** Weekday statistics *)

(** The entry that the loop over [range(7)] writes for weekday [w]. *)
Lemma weekday_entry_Some weekday_counts min_date max_date w :
  weekday_entry weekday_counts min_date max_date w =
  Some {| occurrence_count := default 0 (weekday_counts !! w);
          occurrence_rate :=
            (let opportunities := _count_weekdays_in_range min_date max_date w in
             if decide (0 < opportunities)
             then Float64.div (Float64.of_int (default 0 (weekday_counts !! w)))
                              (Float64.of_int opportunities)
             else Float64.zero);
          total_opportunities := _count_weekdays_in_range min_date max_date w |}.
Proof.
  unfold weekday_entry. simpl.
  destruct (decide (0 < _count_weekdays_in_range min_date max_date w)) as [Hpos|Hle].
  - unfold py_truediv. rewrite decide_False by lia. done.
  - done.
Qed.

Lemma weekday_loop_Some weekday_counts min_date max_date wds : forall acc,
  exists ws,
    weekday_loop weekday_counts min_date max_date wds acc = Some ws
    /\ (forall w, w ∈ wds ->
          ws !! w = weekday_entry weekday_counts min_date max_date w)
    /\ (forall w, w ∉ wds -> ws !! w = acc !! w).
Proof.
  induction wds as [|wd wds IH]; intros acc; simpl.
  - exists acc. split; [done|]. split; [|done]. by intros w ?%not_elem_of_nil.
  - rewrite weekday_entry_Some. simpl.
    match goal with
    | |- context [weekday_loop _ _ _ _ (<[wd := ?info]> acc)] =>
        destruct (IH (<[wd := info]> acc)) as (ws & Hws & Hin & Hout)
    end.
    exists ws. split; [exact Hws|]. split.
    + intros w Hw. destruct (decide (w ∈ wds)) as [Hmem|Hmem]; [by apply Hin|].
      apply elem_of_cons in Hw as [->|Hw]; [|done].
      rewrite (Hout _ Hmem), lookup_insert_eq. by rewrite weekday_entry_Some.
    + intros w Hw. apply not_elem_of_cons in Hw as [Hne Hw].
      rewrite (Hout _ Hw). by rewrite lookup_insert_ne.
Qed.

Lemma elem_of_range_7 w : w ∈ range 7 <-> 0 <= w < 7.
Proof.
  unfold range. rewrite list_elem_of_fmap. split.
  - intros (n & -> & Hn%elem_of_seq). lia.
  - intros Hw. exists (Z.to_nat w). split; [lia|]. apply elem_of_seq. lia.
Qed.

(** The statistics of a non-empty date column: an entry for each of the
    seven weekdays and for nothing else. *)
Lemma _compute_weekday_stats_nonempty history min_date max_date :
  series_min history = Some min_date ->
  series_max history = Some max_date ->
  exists ws,
    _compute_weekday_stats history = Some ws
    /\ (forall w, 0 <= w < 7 ->
          ws !! w =
          weekday_entry (value_counts (weekday <$> history)) min_date max_date w)
    /\ (forall w, ~ 0 <= w < 7 -> ws !! w = None).
Proof.
  destruct history as [|d ds]; [done|]. intros [= <-] [= <-].
  unfold _compute_weekday_stats.
  destruct (weekday_loop_Some (value_counts (weekday <$> d :: ds))
              (col_min d ds) (col_max d ds) (range 7) ∅) as (ws & Hws & Hin & Hout).
  exists ws. split; [exact Hws|]. split.
  - intros w Hw. by apply Hin, elem_of_range_7.
  - intros w Hw. rewrite Hout; [done|]. by rewrite elem_of_range_7.
Qed.

Lemma _compute_weekday_stats_total history :
  is_Some (_compute_weekday_stats history).
Proof.
  destruct history as [|d ds] eqn:E; [by eexists|]. rewrite <- E.
  destruct (_compute_weekday_stats_nonempty history (col_min d ds) (col_max d ds))
    as (ws & -> & _); by subst.
Qed.

(** The division of [_compute_weekday_stats] is guarded, so the statistics
    of a miss are computed for every history of timestamps. *)
Lemma fresh_stats_total history : is_Some (fresh_stats history).
Proof.
  unfold fresh_stats.
  destruct (_compute_weekday_stats_total (sort_values history)) as [ws ->].
  by eexists.
Qed.

Lemma fresh_stats_total_events history stats :
  fresh_stats history = Some stats -> total_events stats = length history.
Proof.
  unfold fresh_stats.
  destruct (_compute_weekday_stats (sort_values history)); [|done].
  by intros [= <-].
Qed.

Lemma fresh_stats_weekday_stats history stats :
  fresh_stats history = Some stats ->
  _compute_weekday_stats (sort_values history) = Some (weekday_stats stats).
Proof.
  unfold fresh_stats.
  destruct (_compute_weekday_stats (sort_values history)); [|done].
  by intros [= <-].
Qed.

Lemma compute_entity_stats_total self entity_id history :
  is_Some (compute_entity_stats self entity_id history).
Proof.
  unfold compute_entity_stats.
  destruct (_cache self !! cache_key entity_id (length history)); [by eexists|].
  destruct (fresh_stats_total history) as [stats ->]. by eexists.
Qed.

Lemma compute_entity_stats_miss self entity_id history :
  _cache self !! cache_key entity_id (length history) = None ->
  exists stats,
    fresh_stats history = Some stats
    /\ compute_entity_stats self entity_id history =
       Some (stats,
             {| _cache := <[cache_key entity_id (length history) := stats]> (_cache self) |},
             [LogComputeStats entity_id (length history)]).
Proof.
  intros Hmiss. unfold compute_entity_stats. rewrite Hmiss.
  destruct (fresh_stats_total history) as [stats ->]. by exists stats.
Qed.

(** The weekday entry of freshly computed statistics, in terms of the
    history as the caller passed it (sorting changes neither the earliest
    and latest date nor the number of events on a weekday). *)
Lemma fresh_stats_weekday_entry history min_date max_date stats w :
  series_min history = Some min_date ->
  series_max history = Some max_date ->
  fresh_stats history = Some stats ->
  0 <= w < 7 ->
  exists info,
    weekday_stats stats !! w = Some info
    /\ occurrence_count info = Z.of_nat (length (events_on_weekday w history))
    /\ total_opportunities info = _count_weekdays_in_range min_date max_date w
    /\ occurrence_rate info =
       (if decide (0 < total_opportunities info)
        then Float64.div (Float64.of_int (occurrence_count info))
                         (Float64.of_int (total_opportunities info))
        else Float64.zero).
Proof.
  intros Hmin Hmax Hstats Hw.
  apply fresh_stats_weekday_stats in Hstats.
  pose proof (sort_values_Permutation history) as Hperm.
  rewrite <- (series_min_Permutation _ _ Hperm) in Hmin.
  rewrite <- (series_max_Permutation _ _ Hperm) in Hmax.
  destruct (_compute_weekday_stats_nonempty _ _ _ Hmin Hmax) as (ws & Hws & Hin & _).
  rewrite Hstats in Hws. injection Hws as <-.
  rewrite (Hin w Hw), weekday_entry_Some. eexists. split; [reflexivity|]. simpl.
  rewrite weekday_counts_lookup, (events_on_weekday_Permutation w _ _ Hperm).
  done.
Qed.

(** In a history of timestamps without a time of day, the latest is not at
    an earlier time of day than the earliest. *)
Lemma date_only_time_of_day history min_date max_date :
  Forall (fun t => time_of_day t = 0) history ->
  series_min history = Some min_date ->
  series_max history = Some max_date ->
  time_of_day min_date <= time_of_day max_date.
Proof.
  intros Hall [Hmin _]%series_min_spec [Hmax _]%series_max_spec.
  rewrite Forall_forall in Hall.
  rewrite (Hall _ Hmin), (Hall _ Hmax). done.
Qed.

Lemma series_min_le_max col min_date max_date :
  series_min col = Some min_date -> series_max col = Some max_date ->
  min_date <= max_date.
Proof.
  intros [Hin _]%series_min_spec [_ Hle]%series_max_spec. by apply Hle.
Qed.

(** Events on pairwise different calendar dates cannot outnumber the dates
    of their weekday between the earliest and the latest date. *)
Lemma events_on_weekday_bounded history min_date max_date w :
  series_min history = Some min_date ->
  series_max history = Some max_date ->
  NoDup (day_number <$> history) ->
  Z.of_nat (length (events_on_weekday w history))
  <= calendar_dates_on_weekday (day_number min_date) (day_number max_date) w.
Proof.
  intros [_ Hmin]%series_min_spec [_ Hmax]%series_max_spec Hnodup.
  unfold calendar_dates_on_weekday, events_on_weekday.
  apply inj_le.
  transitivity (length (filter (fun d => weekday_of_day d = w) (day_number <$> history))).
  - clear. induction history as [|t h IH]; [done|].
    rewrite fmap_cons, (filter_cons (fun t => weekday t = w)),
      (filter_cons (fun d => weekday_of_day d = w)).
    change (weekday t) with (weekday_of_day (day_number t)).
    destruct (decide (weekday_of_day (day_number t) = w)); simpl;
      [apply le_n_S|]; exact IH.
  - apply submseteq_length, NoDup_submseteq; [by apply NoDup_filter|].
    intros d [Hd Hin]%list_elem_of_filter.
    apply list_elem_of_filter. split; [done|].
    apply list_elem_of_fmap in Hin as (t & -> & Ht).
    apply elem_of_seqZ.
    pose proof (day_number_mono _ _ (Hmin _ Ht)).
    pose proof (day_number_mono _ _ (Hmax _ Ht)). lia.
Qed.

(** ** Opportunities of a weekday *)

(** C3, amended.  On a cache miss with a non-empty history, the count of
    a weekday is the number of events on it, and its opportunities are the
    calendar dates on it among those of the instants [min_date],
    [min_date] + 1 day, ... that are not after [max_date].  When the latest
    event is not at an earlier time of day than the earliest one, these are
    the calendar dates from the earliest to the latest date, both included;
    when, moreover, these dates are fourteen and two events fall on
    Mondays, Monday has 2 opportunities, count 2 and rate 1.0. *)
Theorem total_opportunities_calendar_dates self entity_id history min_date max_date :
  series_min history = Some min_date ->
  series_max history = Some max_date ->
  _cache self !! cache_key entity_id (length history) = None ->
  exists stats self' logs,
    compute_entity_stats self entity_id history = Some (stats, self', logs)
    /\ (forall w, 0 <= w < 7 ->
        exists info,
          weekday_stats stats !! w = Some info
          /\ occurrence_count info = Z.of_nat (length (events_on_weekday w history))
          /\ total_opportunities info =
             calendar_dates_on_weekday (day_number min_date)
               (day_number min_date + days (max_date - min_date)) w
          /\ (time_of_day min_date <= time_of_day max_date ->
              total_opportunities info =
              calendar_dates_on_weekday (day_number min_date) (day_number max_date) w))
    /\ (time_of_day min_date <= time_of_day max_date ->
        day_number max_date = day_number min_date + 13 ->
        length (events_on_weekday 0 history) = 2%nat ->
        exists info,
          weekday_stats stats !! 0 = Some info
          /\ total_opportunities info = 2
          /\ occurrence_count info = 2
          /\ occurrence_rate info = Float64.one).
Proof.
  intros Hmin Hmax Hmiss.
  destruct (compute_entity_stats_miss _ _ _ Hmiss) as (stats & Hstats & Hcall).
  pose proof (series_min_le_max _ _ _ Hmin Hmax) as Hle.
  eexists _, _, _. split; [exact Hcall|]. split.
  - intros w Hw.
    destruct (fresh_stats_weekday_entry _ _ _ _ _ Hmin Hmax Hstats Hw)
      as (info & Hinfo & Hcount & Htotal & _).
    exists info. split; [exact Hinfo|]. split; [exact Hcount|]. split.
    + by rewrite Htotal, _count_weekdays_in_range_spec.
    + intros Htod. by rewrite Htotal, _count_weekdays_in_range_calendar.
  - intros Htod Hspan Hmondays.
    destruct (fresh_stats_weekday_entry _ _ _ _ 0 Hmin Hmax Hstats ltac:(lia))
      as (info & Hinfo & Hcount & Htotal & Hrate).
    rewrite _count_weekdays_in_range_calendar, Hspan, two_weeks_of_dates
      in Htotal by (done || lia).
    rewrite Hmondays in Hcount.
    exists info. rewrite Hrate, Hcount, Htotal. done.
Qed.

Lemma total_opportunities_calendar_dates_witness :
  exists stats self' logs,
    compute_entity_stats create_occurrence_extractor "shop" [date 4; date 11; date 17]
    = Some (stats, self', logs)
    /\ (forall w, 0 <= w < 7 ->
        exists info,
          weekday_stats stats !! w = Some info
          /\ occurrence_count info
             = Z.of_nat (length (events_on_weekday w [date 4; date 11; date 17]))
          /\ total_opportunities info =
             calendar_dates_on_weekday (day_number (date 4))
               (day_number (date 4) + days (date 17 - date 4)) w
          /\ (time_of_day (date 4) <= time_of_day (date 17) ->
              total_opportunities info =
              calendar_dates_on_weekday (day_number (date 4)) (day_number (date 17)) w))
    /\ (time_of_day (date 4) <= time_of_day (date 17) ->
        day_number (date 17) = day_number (date 4) + 13 ->
        length (events_on_weekday 0 [date 4; date 11; date 17]) = 2%nat ->
        exists info,
          weekday_stats stats !! 0 = Some info
          /\ total_opportunities info = 2
          /\ occurrence_count info = 2
          /\ occurrence_rate info = Float64.one).
Proof.
  apply (total_opportunities_calendar_dates create_occurrence_extractor "shop"
           [date 4; date 11; date 17] (date 4) (date 17)); reflexivity.
Defined.

(** A first event at 23:00 on a Monday and a second at 01:00 on the next
    day: the span holds one Tuesday, on which the second event falls, and
    Tuesday gets no opportunity.  A cache hit: after the statistics of a
    history from a Monday to the Tuesday were cached, a history of as many
    events from that Monday to the Sunday of the next week, a span of two
    Mondays, gets one opportunity for Monday. *)
Lemma late_first_event_loses_last_date :
  series_min [at_time 4 23; at_time 5 1] = Some (at_time 4 23)
  /\ series_max [at_time 4 23; at_time 5 1] = Some (at_time 5 1)
  /\ calendar_dates_on_weekday
       (day_number (at_time 4 23)) (day_number (at_time 5 1)) 1 = 1
  /\ returned_weekday_info
       (compute_entity_stats create_occurrence_extractor "shop"
          [at_time 4 23; at_time 5 1]) 1
     = Some {| occurrence_count := 1;
               occurrence_rate := Float64.zero;
               total_opportunities := 0 |}
  /\ calendar_dates_on_weekday (day_number (date 4)) (day_number (date 17)) 0 = 2
  /\ (extractor_after ["shop"] [date 4; date 5]
      ≫= fun self =>
           returned_weekday_info (compute_entity_stats self "shop" [date 4; date 17]) 0)
     = Some {| occurrence_count := 1;
               occurrence_rate := Float64.one;
               total_opportunities := 1 |}.
Proof. repeat split; vm_compute; reflexivity. Qed.

(** ** Gaps between events *)

Lemma gaps_loop_spec (rest : list Timestamp) : forall pre a acc,
  foldl (fun gaps i =>
           let gap := days (nth i (pre ++ a :: rest) 0
                            - nth (i - 1) (pre ++ a :: rest) 0) in
           if decide (0 < gap) then gaps ++ [gap] else gaps)
        acc (seq (S (length pre)) (length rest))
  = acc ++ filter (fun g => 0 < g) (consecutive_day_gaps (a :: rest)).
Proof.
  induction rest as [|b rest IH]; intros pre a acc.
  - simpl. by rewrite app_nil_r.
  - cbn [length seq foldl].
    replace (S (length pre) - 1)%nat with (length pre) by lia.
    rewrite (app_nth2 pre (a :: b :: rest)) by lia.
    rewrite (app_nth2 pre (a :: b :: rest) 0 (Nat.le_refl _)).
    replace (S (length pre) - length pre)%nat with 1%nat by lia.
    rewrite Nat.sub_diag. cbn [nth].
    pose proof (IH (pre ++ [a]) b) as IH'.
    rewrite <- app_assoc, length_app in IH'. cbn [length app] in IH'.
    replace (length pre + 1)%nat with (S (length pre)) in IH' by lia.
    rewrite IH'. cbn [consecutive_day_gaps]. rewrite filter_cons.
    destruct (decide (0 < days (b - a))); [by rewrite <- app_assoc | done].
Qed.

(** The gap list is the list of the positive whole-day differences between
    neighbours, in order. *)
Lemma _compute_gaps_between_events_spec history :
  _compute_gaps_between_events history
  = filter (fun g => 0 < g) (consecutive_day_gaps history).
Proof.
  unfold _compute_gaps_between_events.
  destruct history as [|a rest]; [done|].
  destruct (decide (length (a :: rest) < 2)%nat) as [Hshort|Hlong].
  - destruct rest; [done | simpl in Hshort; lia].
  - pose proof (gaps_loop_spec rest [] a []) as Hloop.
    cbn [length app] in Hloop |- *.
    replace (S (length rest) - 1)%nat with (length rest) by lia.
    exact Hloop.
Qed.

Lemma days_nonneg a b : a <= b -> 0 <= days (b - a).
Proof. intros. apply Z.div_pos; [lia | apply NS_PER_DAY_pos]. Qed.

Lemma consecutive_day_gaps_sorted history :
  Sorted Z.le history -> Forall (fun g => 0 <= g) (consecutive_day_gaps history).
Proof.
  induction 1 as [|a rest Hsorted IH Hhd]; [constructor|].
  destruct rest as [|b rest]; [constructor|].
  cbn [consecutive_day_gaps]. constructor; [|exact IH].
  apply days_nonneg. by inversion Hhd.
Qed.

Lemma filter_positive_nonzero gaps :
  Forall (fun g => 0 <= g) gaps ->
  filter (fun g => 0 < g) gaps = filter (fun g => g <> 0) gaps.
Proof.
  induction 1 as [|g gaps Hg _ IH]; [done|].
  rewrite (filter_cons (fun g => 0 < g)), (filter_cons (fun g => g <> 0)), IH.
  destruct (decide (0 < g)), (decide (g <> 0)); (done || lia).
Qed.

(** Two timestamps on one calendar date, in order, are less than a whole
    day apart; a whole day apart or more gives a positive gap. *)
Lemma days_same_date a b :
  a <= b -> day_number a = day_number b -> days (b - a) = 0.
Proof.
  intros Hle Hday. rewrite days_between.
  destruct (decide (time_of_day a <= time_of_day b)); [lia|].
  pose proof (timestamp_split a). pose proof (timestamp_split b). lia.
Qed.

Lemma days_whole_day a b : NS_PER_DAY <= b - a -> 0 < days (b - a).
Proof.
  intros Hle. unfold days. pose proof NS_PER_DAY_pos.
  apply Z.div_str_pos. lia.
Qed.

(** Timestamps without a time of day: on different dates they are a whole
    day apart or more. *)
Lemma date_only_whole_day a b :
  time_of_day a = 0 -> time_of_day b = 0 ->
  a <= b -> day_number a <> day_number b -> NS_PER_DAY <= b - a.
Proof.
  intros Ha Hb Hle Hday.
  pose proof (timestamp_split a). pose proof (timestamp_split b).
  pose proof (day_number_mono _ _ Hle). pose proof NS_PER_DAY_pos. nia.
Qed.

(** C5, amended.  For a history sorted by date, the gap list is the list
    of the whole-day differences between neighbours without the zeros; a
    history of fewer than two records has no gap; and three events of which
    two neighbours share a calendar date and the other two neighbours are a
    whole day apart or more have exactly one gap. *)
Theorem gaps_of_sorted_history history :
  Sorted Z.le history ->
  _compute_gaps_between_events history
  = filter (fun g => g <> 0) (consecutive_day_gaps history)
  /\ ((length history < 2)%nat -> _compute_gaps_between_events history = [])
  /\ (forall t1 t2 t3,
        history = [t1; t2; t3] ->
        (day_number t1 = day_number t2 /\ NS_PER_DAY <= t3 - t2)
        \/ (day_number t2 = day_number t3 /\ NS_PER_DAY <= t2 - t1) ->
        length (_compute_gaps_between_events history) = 1%nat).
Proof.
  intros Hsorted. rewrite _compute_gaps_between_events_spec. split; [|split].
  - by apply filter_positive_nonzero, consecutive_day_gaps_sorted.
  - intros Hshort. destruct history as [|a [|b rest]]; [done | done |].
    simpl in Hshort. lia.
  - intros t1 t2 t3 -> Hshape.
    assert (t1 <= t2 /\ t2 <= t3) as [H12 H23].
    { inversion Hsorted as [|? ? Hrest Hhd]; subst. inversion Hhd; subst.
      inversion Hrest as [|? ? _ Hhd']; subst. inversion Hhd'; subst. done. }
    cbn [consecutive_day_gaps].
    rewrite !(filter_cons (fun g => 0 < g)), filter_nil.
    destruct Hshape as [[Hday Hfar]|[Hday Hfar]].
    + rewrite (days_same_date _ _ H12 Hday).
      pose proof (days_whole_day _ _ Hfar).
      rewrite decide_False, decide_True by lia. done.
    + rewrite (days_same_date _ _ H23 Hday).
      pose proof (days_whole_day _ _ Hfar).
      rewrite decide_True, decide_False by lia. done.
Qed.

Lemma gaps_of_sorted_history_witness :
  _compute_gaps_between_events [date 4; date 4; date 11]
  = filter (fun g => g <> 0) (consecutive_day_gaps [date 4; date 4; date 11])
  /\ ((length [date 4; date 4; date 11] < 2)%nat ->
      _compute_gaps_between_events [date 4; date 4; date 11] = [])
  /\ (forall t1 t2 t3,
        [date 4; date 4; date 11] = [t1; t2; t3] ->
        (day_number t1 = day_number t2 /\ NS_PER_DAY <= t3 - t2)
        \/ (day_number t2 = day_number t3 /\ NS_PER_DAY <= t2 - t1) ->
        length (_compute_gaps_between_events [date 4; date 4; date 11]) = 1%nat).
Proof.
  apply (gaps_of_sorted_history [date 4; date 4; date 11]).
  repeat constructor; by vm_compute.
Defined.

(** Two events on one Monday and a third on the Tuesday, less than a day
    after the second: no gap at all. *)
Lemma next_day_event_within_a_day_leaves_no_gap :
  Sorted Z.le [at_time 4 10; at_time 4 12; at_time 5 11]
  /\ day_number (at_time 4 10) = day_number (at_time 4 12)
  /\ day_number (at_time 5 11) = day_number (at_time 4 12) + 1
  /\ _compute_gaps_between_events [at_time 4 10; at_time 4 12; at_time 5 11] = [].
Proof.
  split; [repeat constructor; by vm_compute|].
  repeat split; vm_compute; reflexivity.
Qed.

(** ** Periodicity score *)

(** C4.  Fewer than three gaps score 0.0.  Three gaps or more score 0.0
    when their mean is zero and [1 / (1 + cv)] otherwise, where [cv] is
    the standard deviation over the mean, the mean is the sum of the gaps
    over their number [n], and the standard deviation is the population
    one: the square root of the sum of the squared deviations from the
    mean over [n], not over [n - 1].  All of it is binary64 arithmetic with
    the sums in numpy's order.

    On the gaps [2, 4, 4, 4, 5, 5, 7, 9], whose sum is [8 * 5] and whose
    squared deviations add up to [8 * 2^2], the mean is 5.0, the standard
    deviation 2.0 and the score [1 / (1 + 2 / 5)], which is the binary64
    number nearest to [5 / 7].  On [1, 2, 3] the standard
    deviation is the square root of [2 / 3].  On the nine gaps
    [1, 1, 1, 2, 2, 3, 3, 3, 5] the score is
    [5869708231508115 * 2^-53], printed 0.6516685226452118; added from
    left to right the squared deviations would give the number below it.
    On the 136 gaps [1 + 4 i^2 mod 9] for [i] from 0 to 135, which numpy
    adds in two halves of 64 and 72, the score is
    [5136686527442866 * 2^-53], printed 0.5702867653048911.  The gaps
    [7, 7, 7, 7] have standard deviation 0.0 and score 1.0; the gaps
    [1, 2] score 0.0. *)
Theorem periodicity_score_formula gaps :
  let n := Float64.of_int (Z.of_nat (length gaps)) in
  let mean := Float64.div (np_sum_int gaps) n in
  let squared_deviation g :=
    let d := Float64.sub (Float64.of_int g) mean in Float64.mul d d in
  let std :=
    Float64.sqrt (Float64.div (np_sum (squared_deviation <$> gaps)) n) in
  let cv := Float64.div std mean in
  np_mean gaps = mean
  /\ np_std gaps = std
  /\ ((length gaps < 3)%nat -> _compute_periodicity_score gaps = Float64.zero)
  /\ ((3 <= length gaps)%nat ->
      Float64.eqb mean (Float64.of_int 0) = true ->
      _compute_periodicity_score gaps = Float64.zero)
  /\ ((3 <= length gaps)%nat ->
      Float64.eqb mean (Float64.of_int 0) = false ->
      _compute_periodicity_score gaps =
      Float64.div Float64.one (Float64.add Float64.one cv))
  /\ (sum_gaps [2; 4; 4; 4; 5; 5; 7; 9] = 8 * 5
      /\ sum_gaps ((fun g => (g - 5) * (g - 5)) <$> [2; 4; 4; 4; 5; 5; 7; 9])
         = 8 * (2 * 2)
      /\ np_mean [2; 4; 4; 4; 5; 5; 7; 9] = Float64.of_int 5
      /\ np_std [2; 4; 4; 4; 5; 5; 7; 9] = Float64.of_int 2
      /\ _compute_periodicity_score [2; 4; 4; 4; 5; 5; 7; 9]
         = Float64.div Float64.one
             (Float64.add Float64.one
                (Float64.div (Float64.of_int 2) (Float64.of_int 5)))
      /\ _compute_periodicity_score [2; 4; 4; 4; 5; 5; 7; 9]
         = Float64.div (Float64.of_int 5) (Float64.of_int 7))
  /\ (np_mean [1; 2; 3] = Float64.of_int 2
      /\ np_std [1; 2; 3]
         = Float64.sqrt (Float64.div (Float64.of_int 2) (Float64.of_int 3)))
  /\ (_compute_periodicity_score [1; 1; 1; 2; 2; 3; 3; 3; 5]
        = S754_finite false 5869708231508115 (-53)
      /\ Float64.div Float64.one
           (Float64.add Float64.one
              (Float64.div
                 (Float64.sqrt
                    (Float64.div
                       (foldl Float64.add Float64.zero
                          ((fun g =>
                              let d := Float64.sub (Float64.of_int g)
                                         (np_mean [1; 1; 1; 2; 2; 3; 3; 3; 5]) in
                              Float64.mul d d)
                             <$> [1; 1; 1; 2; 2; 3; 3; 3; 5]))
                       (Float64.of_int 9)))
                 (np_mean [1; 1; 1; 2; 2; 3; 3; 3; 5])))
         = S754_finite false 5869708231508114 (-53))
  /\ _compute_periodicity_score
       ((fun i => 1 + (4 * i * i) mod 9) <$> range 136)
     = S754_finite false 5136686527442866 (-53)
  /\ np_std [7; 7; 7; 7] = Float64.zero
  /\ _compute_periodicity_score [7; 7; 7; 7] = Float64.one
  /\ _compute_periodicity_score [1; 2] = Float64.zero.
Proof.
  cbv zeta.
  assert (Hstd : np_std gaps =
    Float64.sqrt
      (Float64.div
         (np_sum
            ((fun g =>
                Float64.mul (Float64.sub (Float64.of_int g) (np_mean gaps))
                            (Float64.sub (Float64.of_int g) (np_mean gaps)))
               <$> gaps))
         (Float64.of_int (Z.of_nat (length gaps))))).
  { unfold np_std. cbv zeta. by rewrite <- list_fmap_compose. }
  fold (np_mean gaps). rewrite <- Hstd.
  split; [reflexivity|]. split; [reflexivity|].
  split; [|split; [|split; [|repeat split; vm_compute; reflexivity]]];
    unfold _compute_periodicity_score.
  - intros Hshort. by rewrite decide_True.
  - intros Hlong Hmean. rewrite decide_False by lia. by rewrite Hmean.
  - intros Hlong Hmean. rewrite decide_False by lia. by rewrite Hmean.
Qed.

(** ** The decision rule *)

(** C6.  With the statistics that [compute_entity_stats] returns, the count
    and the rate of the target weekday decide: a count below
    [min_occurrence_count] rejects with confidence 0.0 whatever the rate;
    otherwise a rate below [min_occurrence_rate] rejects with the rate as
    confidence; otherwise the prediction is authorized with the rate as
    confidence.  With the default thresholds 2 and 0.15, a count of 1
    rejects with confidence 0.0. *)
Theorem should_predict_event_cascade (get_week_of_month : Timestamp -> Z)
    self entity_id target_date history min_occurrence_count min_occurrence_rate :
  exists stats self' logs,
    compute_entity_stats self entity_id history = Some (stats, self', logs)
    /\ let info := default absent_weekday_info
                     (weekday_stats stats !! weekday target_date) in
       let count := occurrence_count info in
       let rate := occurrence_rate info in
       let decision :=
         should_predict_event get_week_of_month self entity_id target_date
           history min_occurrence_count min_occurrence_rate in
       (count < min_occurrence_count ->
        decision = Some (false, Float64.zero,
                         InsufficientSample count min_occurrence_count, self', logs))
       /\ (min_occurrence_count <= count ->
           Float64.ltb rate min_occurrence_rate = true ->
           decision = Some (false, rate,
                            RateTooLow rate min_occurrence_rate, self', logs))
       /\ (min_occurrence_count <= count ->
           Float64.ltb rate min_occurrence_rate = false ->
           decision = Some (true, rate,
                            PredictionAuthorized rate count, self', logs))
       /\ (count = 1 ->
           should_predict_event get_week_of_month self entity_id target_date
             history default_min_occurrence_count default_min_occurrence_rate
           = Some (false, Float64.zero, InsufficientSample 1 2, self', logs)).
Proof.
  destruct (compute_entity_stats_total self entity_id history)
    as [[[stats self'] logs] Hcall].
  exists stats, self', logs. split; [exact Hcall|].
  unfold should_predict_event, extract_features. rewrite Hcall. simpl.
  repeat split.
  - intros Hlow. by rewrite decide_True.
  - intros Hcount Hrate. rewrite decide_False by lia. by rewrite Hrate.
  - intros Hcount Hrate. rewrite decide_False by lia. by rewrite Hrate.
  - intros ->. reflexivity.
Qed.

(** ** Cached results *)

(** C8.  A call returns; the same call on the extractor it leaves returns
    the same statistics and leaves the same extractor, so the same cache
    size, and it logs a cache hit: the statistics are read from the cache,
    whatever the contents of a history of that length. *)
Theorem compute_entity_stats_idempotent self entity_id history :
  exists stats self' logs,
    compute_entity_stats self entity_id history = Some (stats, self', logs)
    /\ compute_entity_stats self' entity_id history
       = Some (stats, self', [LogCacheHit entity_id])
    /\ _cache self' !! cache_key entity_id (length history) = Some stats
    /\ (fun r => get_cache_stats r.1.2)
         <$> compute_entity_stats self' entity_id history
       = Some (get_cache_stats self')
    /\ (forall history',
          length history' = length history ->
          compute_entity_stats self' entity_id history'
          = Some (stats, self', [LogCacheHit entity_id])).
Proof.
  assert (Hhit : forall stats self' history',
            _cache self' !! cache_key entity_id (length history) = Some stats ->
            length history' = length history ->
            compute_entity_stats self' entity_id history'
            = Some (stats, self', [LogCacheHit entity_id])).
  { intros stats self' history' Hlookup Hlen.
    unfold compute_entity_stats. by rewrite Hlen, Hlookup. }
  assert (Hcases : exists stats self' logs,
            compute_entity_stats self entity_id history = Some (stats, self', logs)
            /\ _cache self' !! cache_key entity_id (length history) = Some stats).
  { unfold compute_entity_stats.
    destruct (_cache self !! cache_key entity_id (length history)) as [stats|] eqn:E.
    - by exists stats, self, [LogCacheHit entity_id].
    - destruct (fresh_stats_total history) as [stats ->]. simpl.
      eexists _, _, _. split; [reflexivity|]. simpl. apply lookup_insert_eq. }
  destruct Hcases as (stats & self' & logs & Hcall & Hlookup).
  exists stats, self', logs. split; [exact Hcall|].
  split; [by apply Hhit|]. split; [exact Hlookup|]. split.
  - by rewrite (Hhit stats self' history Hlookup eq_refl).
  - intros history' Hlen. by apply Hhit.
Qed.

(** ** Cache keys *)

Lemma append_nil (t : string) : "" +:+ t = t.
Proof. reflexivity. Qed.

Lemma append_cons c (s t : string) : String c s +:+ t = String c (s +:+ t).
Proof. reflexivity. Qed.

Lemma has_separator_app_sep s d : has_separator (s +:+ String "_" d) = true.
Proof.
  induction s as [|c s IH]; [done|].
  rewrite append_cons. cbn [has_separator]. rewrite IH. apply orb_true_r.
Qed.

Lemma has_separator_pretty_N_go x : forall s,
  has_separator s = false -> has_separator (pretty_N_go x s) = false.
Proof.
  induction (N.lt_wf_0 x) as [x _ IH]; intros s Hs.
  destruct (decide (x = 0)%N) as [->|Hx]; [by rewrite pretty_N_go_0|].
  rewrite pretty_N_go_step by lia. apply IH; [apply N.div_lt; lia|].
  simpl. rewrite Hs, orb_false_r.
  unfold pretty_N_char. by repeat case_match.
Qed.

Lemma has_separator_pretty_nat (n : nat) : has_separator (pretty n) = false.
Proof.
  unfold pretty, pretty_nat, pretty, pretty_N.
  destruct (decide (N.of_nat n = 0)%N); [done|].
  by apply has_separator_pretty_N_go.
Qed.

(** The text before the last separator and the text after it are read off
    a key without ambiguity. *)
Lemma key_split_unique a : forall a' d d',
  has_separator d = false -> has_separator d' = false ->
  a +:+ "_" +:+ d = a' +:+ "_" +:+ d' -> a = a' /\ d = d'.
Proof.
  induction a as [|c a IH]; intros [|c' a'] d d' Hd Hd' Heq;
    rewrite ?append_nil, ?append_cons, ?append_nil in Heq.
  - by injection Heq as ->.
  - injection Heq as <- ->. by rewrite has_separator_app_sep in Hd.
  - injection Heq as -> <-. by rewrite has_separator_app_sep in Hd'.
  - injection Heq as -> Heq. destruct (IH _ _ _ Hd Hd' Heq) as [-> ->]. done.
Qed.

Lemma cache_key_inj entity_id n entity_id' n' :
  cache_key entity_id n = cache_key entity_id' n' ->
  entity_id = entity_id' /\ n = n'.
Proof.
  intros Heq.
  apply key_split_unique in Heq as [-> Hn]; try apply has_separator_pretty_nat.
  split; [done|]. by apply (inj pretty).
Qed.

(** ** Clearing the cache *)

Lemma foldl_delete_lookup (ks : list string) : forall (m : gmap string EntityStats) k,
  foldl (fun cache key => delete key cache) m ks !! k
  = if decide (k ∈ ks) then None else m !! k.
Proof.
  induction ks as [|k' ks IH]; intros m k; cbn [foldl].
  - rewrite decide_False; [done | apply not_elem_of_nil].
  - rewrite IH. destruct (decide (k ∈ ks)) as [Hin|Hout].
    + rewrite decide_True; [done | by apply list_elem_of_further].
    + destruct (decide (k = k')) as [->|Hne].
      * rewrite decide_True by apply list_elem_of_here. apply lookup_delete_eq.
      * rewrite decide_False by (rewrite elem_of_cons; tauto).
        by apply lookup_delete_ne.
Qed.

Lemma elem_of_cache_keys self k : k ∈ cache_keys self <-> is_Some (_cache self !! k).
Proof.
  unfold cache_keys. rewrite list_elem_of_fmap. split.
  - intros ([k' v] & -> & Hin%elem_of_map_to_list). by exists v.
  - intros [v Hv]. exists (k, v). split; [done|]. by apply elem_of_map_to_list.
Qed.

(** What [clear_cache] with a non-empty entity id removes: the keys that
    start with the id, as strings. *)
Lemma clear_cache_lookup self c rest k :
  _cache (clear_cache self (Some (String c rest))).1 !! k
  = if startswith k (String c rest) then None else _cache self !! k.
Proof.
  unfold clear_cache. cbn [fst _cache]. rewrite foldl_delete_lookup.
  destruct (startswith k (String c rest)) eqn:Hstart.
  - destruct (_cache self !! k) as [v|] eqn:Hk.
    + rewrite decide_True; [done|].
      apply list_elem_of_filter. split; [done|]. apply elem_of_cache_keys. by exists v.
    + by destruct (decide _).
  - rewrite decide_False; [done|].
    rewrite list_elem_of_filter. intros [Hs _]. congruence.
Qed.

Lemma clear_cache_all self entity_id :
  entity_id = None \/ entity_id = Some EmptyString ->
  clear_cache self entity_id = (create_occurrence_extractor, [LogCacheClearedAll]).
Proof. by intros [-> | ->]. Qed.

Lemma clear_cache_subset self entity_id k stats :
  _cache (clear_cache self entity_id).1 !! k = Some stats ->
  _cache self !! k = Some stats.
Proof.
  destruct entity_id as [[|c rest]|]; [done| |done].
  rewrite clear_cache_lookup. by destruct (startswith _ _).
Qed.

(** What the two readings of a key get right: the keys of an entity start
    with its id, and the text before the first underscore of a key is the
    id when the id has no underscore. *)
Lemma startswith_own_key entity_id n :
  startswith (cache_key entity_id n) entity_id = true.
Proof.
  unfold startswith, cache_key.
  induction entity_id as [|c s IH]; [done|].
  rewrite append_cons. cbn [String.prefix].
  destruct (ascii_dec c c); [exact IH | done].
Qed.

Lemma clear_cache_own_keys self c rest n :
  _cache (clear_cache self (Some (String c rest))).1 !! cache_key (String c rest) n
  = None.
Proof. by rewrite clear_cache_lookup, startswith_own_key. Qed.

Lemma first_segment_cache_key entity_id n :
  has_separator entity_id = false ->
  first_segment (cache_key entity_id n) = entity_id.
Proof.
  unfold cache_key. induction entity_id as [|c s IH]; [done|].
  rewrite append_cons. cbn [has_separator first_segment].
  intros [Hc Hs]%orb_false_elim. rewrite Hc. f_equal. by apply IH.
Qed.

(** ** Reachable extractors *)

Lemma reachable_consistent self : reachable self -> cache_consistent self.
Proof.
  induction 1 as [|self entity_id history stats self' logs _ IH Hcall
                  |self entity_id _ IH]; intros id n s Hlookup.
  - done.
  - unfold compute_entity_stats in Hcall.
    destruct (_cache self !! cache_key entity_id (length history)) as [cached|] eqn:E.
    + injection Hcall as <- <- <-. by apply (IH id).
    + destruct (fresh_stats history) as [fresh|] eqn:Hfresh; [|done].
      injection Hcall as <- <- <-. cbn [_cache] in Hlookup.
      destruct (decide (cache_key entity_id (length history) = cache_key id n))
        as [Hkey|Hkey].
      * rewrite Hkey, lookup_insert_eq in Hlookup. injection Hlookup as <-.
        apply cache_key_inj in Hkey as [_ <-]. by exists history.
      * rewrite lookup_insert_ne in Hlookup by done. by apply (IH id).
  - apply (IH id). by eapply clear_cache_subset.
Qed.

(** The statistics of a non-empty history have the seven weekdays. *)
Lemma fresh_stats_complete history stats w :
  history <> [] -> fresh_stats history = Some stats -> 0 <= w < 7 ->
  is_Some (weekday_stats stats !! w).
Proof.
  intros Hne Hstats Hw. destruct history as [|d ds] eqn:E; [done|]. rewrite <- E in *.
  destruct (fresh_stats_weekday_entry history (col_min d ds) (col_max d ds) stats w)
    as (info & -> & _); by subst.
Qed.

(** The statistics of an empty history. *)
Lemma fresh_stats_empty :
  fresh_stats [] =
  Some {| weekday_stats := ∅;
          stddev_gap_between_events := Float64.zero;
          periodicity_score := Float64.zero;
          total_events := 0;
          history_span_days := None |}.
Proof. reflexivity. Qed.

(** The rate of every weekday in the statistics of a non-empty history. *)
Lemma fresh_stats_rate history stats w :
  history <> [] -> fresh_stats history = Some stats -> 0 <= w < 7 ->
  exists info,
    weekday_stats stats !! w = Some info
    /\ 0 <= total_opportunities info
    /\ occurrence_rate info =
       (if decide (0 < total_opportunities info)
        then Float64.div (Float64.of_int (occurrence_count info))
                         (Float64.of_int (total_opportunities info))
        else Float64.zero).
Proof.
  intros Hne Hstats Hw. destruct history as [|d ds] eqn:E; [done|]. rewrite <- E in *.
  assert (Hmin : series_min history = Some (col_min d ds)) by by subst.
  assert (Hmax : series_max history = Some (col_max d ds)) by by subst.
  destruct (fresh_stats_weekday_entry _ _ _ _ _ Hmin Hmax Hstats Hw)
    as (info & Hinfo & _ & Htotal & Hrate).
  exists info. split; [exact Hinfo|]. split; [|exact Hrate].
  rewrite Htotal, _count_weekdays_in_range_spec
    by exact (series_min_le_max _ _ _ Hmin Hmax).
  apply calendar_dates_on_weekday_nonneg.
Qed.

(** ** Rates and counts of the weekdays *)

(** C2, amended.  On an extractor that a program can hold, the statistics
    returned for a non-empty history have an entry for every weekday, whose
    rate is the quotient of its count and its opportunities when there are
    opportunities and 0.0 when there are none.  When the statistics are
    computed from this history (a cache miss), no two events share a
    calendar date and the latest event is not at an earlier time of day
    than the earliest one, the count is at most the opportunities. *)
Theorem weekday_rate_and_count_bound self entity_id history :
  reachable self ->
  history <> [] ->
  exists stats self' logs,
    compute_entity_stats self entity_id history = Some (stats, self', logs)
    /\ forall w, 0 <= w < 7 ->
       exists info,
         weekday_stats stats !! w = Some info
         /\ 0 <= total_opportunities info
         /\ (0 < total_opportunities info ->
             occurrence_rate info =
             Float64.div (Float64.of_int (occurrence_count info))
                         (Float64.of_int (total_opportunities info)))
         /\ (total_opportunities info = 0 -> occurrence_rate info = Float64.zero)
         /\ (forall min_date max_date,
               _cache self !! cache_key entity_id (length history) = None ->
               series_min history = Some min_date ->
               series_max history = Some max_date ->
               NoDup (day_number <$> history) ->
               time_of_day min_date <= time_of_day max_date ->
               occurrence_count info <= total_opportunities info).
Proof.
  intros Hreach Hne.
  destruct (compute_entity_stats_total self entity_id history)
    as [[[stats self'] logs] Hcall].
  exists stats, self', logs. split; [exact Hcall|]. intros w Hw.
  assert (Hsource : exists history',
            history' <> [] /\ fresh_stats history' = Some stats
            /\ (_cache self !! cache_key entity_id (length history) = None ->
                history' = history)).
  { unfold compute_entity_stats in Hcall.
    destruct (_cache self !! cache_key entity_id (length history)) as [cached|] eqn:E.
    - injection Hcall as <- <- <-.
      destruct (reachable_consistent _ Hreach _ _ _ E) as (history' & Hlen & Hstats).
      exists history'. split; [|done]. intros ->. by destruct history.
    - destruct (fresh_stats history) as [fresh|] eqn:Hfresh; [|done].
      injection Hcall as <- <- <-. by exists history. }
  destruct Hsource as (history' & Hne' & Hstats & Hsame).
  destruct (fresh_stats_rate _ _ _ Hne' Hstats Hw) as (info & Hinfo & Hpos & Hrate).
  exists info. split; [exact Hinfo|]. split; [exact Hpos|]. repeat split.
  - intros Hopp. by rewrite Hrate, decide_True.
  - intros Hzero. rewrite Hrate, decide_False; [done | lia].
  - intros min_date max_date Hmiss Hmin Hmax Hnodup Htod.
    rewrite (Hsame Hmiss) in Hstats.
    destruct (fresh_stats_weekday_entry _ _ _ _ _ Hmin Hmax Hstats Hw)
      as (info' & Hinfo' & Hcount & Htotal & _).
    rewrite Hinfo in Hinfo'. injection Hinfo' as <-.
    pose proof (series_min_le_max _ _ _ Hmin Hmax) as Hle.
    rewrite Hcount, Htotal, _count_weekdays_in_range_calendar by done.
    by apply events_on_weekday_bounded.
Qed.

Lemma weekday_rate_and_count_bound_witness :
  exists stats self' logs,
    compute_entity_stats create_occurrence_extractor "shop" [date 4; date 8; date 11]
    = Some (stats, self', logs)
    /\ forall w, 0 <= w < 7 ->
       exists info,
         weekday_stats stats !! w = Some info
         /\ 0 <= total_opportunities info
         /\ (0 < total_opportunities info ->
             occurrence_rate info =
             Float64.div (Float64.of_int (occurrence_count info))
                         (Float64.of_int (total_opportunities info)))
         /\ (total_opportunities info = 0 -> occurrence_rate info = Float64.zero)
         /\ (forall min_date max_date,
               _cache create_occurrence_extractor
                 !! cache_key "shop" (length [date 4; date 8; date 11]) = None ->
               series_min [date 4; date 8; date 11] = Some min_date ->
               series_max [date 4; date 8; date 11] = Some max_date ->
               NoDup (day_number <$> [date 4; date 8; date 11]) ->
               time_of_day min_date <= time_of_day max_date ->
               occurrence_count info <= total_opportunities info).
Proof.
  apply (weekday_rate_and_count_bound create_occurrence_extractor "shop"
           [date 4; date 8; date 11]); [apply reachable_create | discriminate].
Defined.

(** Two events on one Monday: the count of Mondays is 2, the span holds
    one Monday, and the rate is 2.0.  An event at 23:00 on a Monday and one
    at 01:00 on the Tuesday: Tuesday has count 1 and no opportunity.  A
    cache hit after these statistics were cached: a history of two events
    on different dates gets the statistics of the two events on one
    Monday. *)
Lemma same_day_events_exceed_opportunities :
  (exists info,
     returned_weekday_info
       (compute_entity_stats create_occurrence_extractor "shop" [date 4; date 4]) 0
     = Some info
     /\ occurrence_count info = 2
     /\ total_opportunities info = 1
     /\ occurrence_rate info = Float64.of_int 2
     /\ ~ occurrence_count info <= total_opportunities info)
  /\ returned_weekday_info
       (compute_entity_stats create_occurrence_extractor "shop"
          [at_time 4 23; at_time 5 1]) 1
     = Some {| occurrence_count := 1;
               occurrence_rate := Float64.zero;
               total_opportunities := 0 |}
  /\ (extractor_after ["shop"] [date 4; date 4]
      ≫= fun self =>
           returned_weekday_info (compute_entity_stats self "shop" [date 4; date 5]) 0)
     = Some {| occurrence_count := 2;
               occurrence_rate := Float64.of_int 2;
               total_opportunities := 1 |}.
Proof.
  split; [|split; vm_compute; reflexivity].
  exists {| occurrence_count := 2;
            occurrence_rate := Float64.of_int 2;
            total_opportunities := 1 |}.
  split; [vm_compute; reflexivity|]. simpl. repeat split; lia.
Qed.

(** ** Frames with a typed date column *)

Lemma fresh_stats_typed_datetime dates :
  fresh_stats_typed (Datetime64 dates) = fresh_stats dates.
Proof.
  unfold fresh_stats_typed, fresh_stats.
  cbn [typed_sort_values typed_dates typed_span_days].
  by destruct (_compute_weekday_stats (sort_values dates)).
Qed.

Lemma fresh_stats_typed_empty_object : fresh_stats_typed EmptyObject = None.
Proof. reflexivity. Qed.

Lemma compute_entity_stats_typed_datetime self entity_id dates :
  compute_entity_stats_typed self entity_id (Datetime64 dates)
  = compute_entity_stats self entity_id dates.
Proof.
  unfold compute_entity_stats_typed, compute_entity_stats.
  by rewrite fresh_stats_typed_datetime.
Qed.

Lemma extract_features_typed_datetime (get_week_of_month : Timestamp -> Z)
    self entity_id target_date dates :
  extract_features_typed get_week_of_month self entity_id target_date
    (Datetime64 dates)
  = extract_features get_week_of_month self entity_id target_date dates.
Proof.
  unfold extract_features_typed, extract_features.
  by rewrite compute_entity_stats_typed_datetime.
Qed.

Lemma should_predict_event_typed_datetime (get_week_of_month : Timestamp -> Z)
    self entity_id target_date dates min_occurrence_count min_occurrence_rate :
  should_predict_event_typed get_week_of_month self entity_id target_date
    (Datetime64 dates) min_occurrence_count min_occurrence_rate
  = should_predict_event get_week_of_month self entity_id target_date dates
      min_occurrence_count min_occurrence_rate.
Proof.
  unfold should_predict_event_typed, should_predict_event.
  by rewrite extract_features_typed_datetime.
Qed.

(** On a frame without rows whose date column has the dtype [object], a
    call returns what the cache holds and raises when it holds nothing. *)
Lemma compute_entity_stats_typed_empty_object self entity_id :
  compute_entity_stats_typed self entity_id EmptyObject
  = match _cache self !! cache_key entity_id 0 with
    | Some stats => Some (stats, self, [LogCacheHit entity_id])
    | None => None
    end.
Proof. reflexivity. Qed.

(** A call on a typed frame leaves an extractor that a program can hold. *)
Lemma compute_entity_stats_typed_reachable self entity_id history stats self' logs :
  reachable self ->
  compute_entity_stats_typed self entity_id history = Some (stats, self', logs) ->
  reachable self'.
Proof.
  intros Hreach Hcall. destruct history as [dates|].
  - rewrite compute_entity_stats_typed_datetime in Hcall.
    by eapply reachable_compute.
  - rewrite compute_entity_stats_typed_empty_object in Hcall.
    destruct (_cache self !! cache_key entity_id 0); [|done].
    by injection Hcall as _ <- _.
Qed.

(** A call that returned is answered from the cache when it is made again. *)
Lemma compute_entity_stats_typed_twice self entity_id history stats self' logs :
  compute_entity_stats_typed self entity_id history = Some (stats, self', logs) ->
  compute_entity_stats_typed self' entity_id history
  = Some (stats, self', [LogCacheHit entity_id]).
Proof.
  unfold compute_entity_stats_typed.
  destruct (_cache self !! cache_key entity_id (length (typed_dates history)))
    as [cached|] eqn:E.
  - intros [= <- <- _]. by rewrite E.
  - destruct (fresh_stats_typed history) as [fresh|]; [|done].
    cbn [mbind option_bind]. intros [= <- <- _]. cbn [_cache].
    by rewrite lookup_insert_eq.
Qed.

(** ** Empty histories and complete weekday statistics *)

(** C7.  On an extractor that a program can hold, [compute_entity_stats]
    with an empty history whose date column is datetime-typed returns: the
    weekday statistics are the empty mapping, the standard deviation of
    the gaps and the periodicity score are 0.0, the number of events is 0,
    and the span is not 0 but the missing value [NaN] that pandas gives
    for [NaT.days]. *)
Theorem empty_history_defaults self entity_id :
  reachable self ->
  exists self' logs,
    compute_entity_stats_typed self entity_id (Datetime64 [])
    = Some ({| weekday_stats := ∅;
               stddev_gap_between_events := Float64.zero;
               periodicity_score := Float64.zero;
               total_events := 0;
               history_span_days := None |}, self', logs).
Proof.
  intros Hreach. rewrite compute_entity_stats_typed_datetime.
  unfold compute_entity_stats. cbn [length].
  destruct (_cache self !! cache_key entity_id 0) as [stats|] eqn:E.
  - destruct (reachable_consistent _ Hreach _ _ _ E) as (history & Hlen & Hstats).
    apply nil_length_inv in Hlen as ->.
    rewrite fresh_stats_empty in Hstats. injection Hstats as <-.
    by eexists _, _.
  - rewrite fresh_stats_empty. by eexists _, _.
Qed.

Lemma empty_history_defaults_witness :
  exists self' logs,
    compute_entity_stats_typed create_occurrence_extractor "shop" (Datetime64 [])
    = Some ({| weekday_stats := ∅;
               stddev_gap_between_events := Float64.zero;
               periodicity_score := Float64.zero;
               total_events := 0;
               history_span_days := None |}, self', logs).
Proof.
  apply (empty_history_defaults create_occurrence_extractor "shop").
  apply reachable_create.
Defined.

(** C7, where the claim fails.  On a new extractor, an empty history whose
    date column has the dtype [object] makes [compute_entity_stats] raise;
    and the span that it returns for an empty history whose date column is
    datetime-typed is the missing value, not 0. *)
Lemma empty_history_raises_or_has_no_span :
  compute_entity_stats_typed create_occurrence_extractor "shop" EmptyObject
  = None
  /\ exists stats self' logs,
       compute_entity_stats_typed create_occurrence_extractor "shop"
         (Datetime64 [])
       = Some (stats, self', logs)
       /\ history_span_days stats = None
       /\ history_span_days stats <> Some 0.
Proof.
  split; [reflexivity|].
  eexists _, _, _. split; [vm_compute; reflexivity|].
  split; [reflexivity|discriminate].
Qed.

(** C10.  On an extractor that a program can hold, the statistics that
    [compute_entity_stats] returns for a non-empty history have an entry
    for each weekday 0..6, and [extract_features] reads the count and the
    rate of the target weekday from its entry; the target weekday has no
    entry, so that the stand-in is used, only if the history is empty. *)
Theorem weekday_stats_complete (get_week_of_month : Timestamp -> Z)
    self entity_id target_date history :
  reachable self ->
  exists stats self' logs features,
    compute_entity_stats self entity_id history = Some (stats, self', logs)
    /\ extract_features get_week_of_month self entity_id target_date history
       = Some (features, self', logs)
    /\ (history <> [] -> forall w, 0 <= w < 7 -> is_Some (weekday_stats stats !! w))
    /\ (history <> [] ->
        exists info,
          weekday_stats stats !! weekday target_date = Some info
          /\ weekday_occurrence_count features = occurrence_count info
          /\ weekday_occurrence_rate features = occurrence_rate info)
    /\ (weekday_stats stats !! weekday target_date = None -> history = []).
Proof.
  intros Hreach.
  destruct (compute_entity_stats_total self entity_id history)
    as [[[stats self'] logs] Hcall].
  assert (Hcomplete : history <> [] ->
            forall w, 0 <= w < 7 -> is_Some (weekday_stats stats !! w)).
  { intros Hne w Hw. unfold compute_entity_stats in Hcall.
    destruct (_cache self !! cache_key entity_id (length history)) as [cached|] eqn:E.
    - injection Hcall as <- <- <-.
      destruct (reachable_consistent _ Hreach _ _ _ E) as (history' & Hlen & Hstats).
      apply (fresh_stats_complete history'); [|done..].
      intros ->. destruct history; [done | discriminate].
    - destruct (fresh_stats history) as [fresh|] eqn:Hfresh; [|done].
      injection Hcall as <- <- <-. by apply (fresh_stats_complete history). }
  unfold extract_features. rewrite Hcall. cbn [mbind option_bind].
  eexists stats, self', logs, _. split; [done|]. split; [reflexivity|].
  split; [exact Hcomplete|]. split.
  - intros Hne. destruct (Hcomplete Hne _ (weekday_range target_date)) as [info Hinfo].
    exists info. by rewrite Hinfo.
  - intros Hnone. destruct history as [|d ds]; [done|].
    destruct (Hcomplete ltac:(done) _ (weekday_range target_date)) as [info Hinfo].
    congruence.
Qed.

Lemma weekday_stats_complete_witness :
  exists stats self' logs features,
    compute_entity_stats create_occurrence_extractor "shop" [date 4; date 8]
    = Some (stats, self', logs)
    /\ extract_features (fun _ => 1) create_occurrence_extractor "shop" (date 12)
         [date 4; date 8]
       = Some (features, self', logs)
    /\ ([date 4; date 8] <> [] ->
        forall w, 0 <= w < 7 -> is_Some (weekday_stats stats !! w))
    /\ ([date 4; date 8] <> [] ->
        exists info,
          weekday_stats stats !! weekday (date 12) = Some info
          /\ weekday_occurrence_count features = occurrence_count info
          /\ weekday_occurrence_rate features = occurrence_rate info)
    /\ (weekday_stats stats !! weekday (date 12) = None -> [date 4; date 8] = []).
Proof.
  apply (weekday_stats_complete (fun _ => 1) create_occurrence_extractor "shop"
           (date 12) [date 4; date 8]).
  apply reachable_create.
Defined.

(** ** Cache administration on keys that share text *)

(** C1.  [clear_cache] with a non-empty entity id removes the keys that
    start with the id as a string and keeps the others.  The keys of the
    entities "A1" and "AB" start with "A": after statistics were cached for
    "A", "A1" and "AB", [clear_cache("A")] leaves an empty cache. *)
Theorem clear_cache_prefix_collision :
  (forall self c rest k,
     _cache (clear_cache self (Some (String c rest))).1 !! k
     = if startswith k (String c rest) then None else _cache self !! k)
  /\ cache_keys <$> extractor_after ["A"; "A1"; "AB"] [date 4]
     = Some ["A_1"; "A1_1"; "AB_1"]
  /\ (fun self => cache_keys (clear_cache self (Some "A")).1)
       <$> extractor_after ["A"; "A1"; "AB"] [date 4]
     = Some [].
Proof.
  split; [exact clear_cache_lookup|]. split; vm_compute; reflexivity.
Qed.

(** C9.  [cache_size] is the number of cached entries, and
    [cached_entities] is the number of different texts before the first
    underscore of the keys.  After statistics were cached for the entities
    "ent_1" and "ent_2", it reports two entries and one entity. *)
Theorem cached_entities_first_segment :
  (forall self,
     cache_size (get_cache_stats self) = size (_cache self)
     /\ cached_entities (get_cache_stats self)
        = size (list_to_set (first_segment <$> cache_keys self) : gset string))
  /\ cache_keys <$> extractor_after ["ent_1"; "ent_2"] [date 4]
     = Some ["ent_1_1"; "ent_2_1"]
  /\ get_cache_stats <$> extractor_after ["ent_1"; "ent_2"] [date 4]
     = Some {| cache_size := 2; cached_entities := 1 |}.
Proof.
  split; [done|]. split; vm_compute; reflexivity.
Qed.

(** * Further properties of the extractor *)

(** ** How a call changes the cache *)

(** X1.  How a call of [compute_entity_stats] changes the cache.  On a hit
    it returns the cached entry, leaves the extractor as it is and logs
    the hit.  A call that returns on a miss has computed the statistics
    from the history, logged the computation and stored them under the key
    of the call, which makes the cache one entry larger; a miss whose
    computation raises, raises.  Every call that returns leaves the entry
    of every other key as it was.  On a new extractor a history of two
    dates is a miss and leaves one entry. *)
Theorem compute_entity_stats_cache_growth self entity_id history :
  let key := cache_key entity_id (length (typed_dates history)) in
  (forall cached,
     _cache self !! key = Some cached ->
     compute_entity_stats_typed self entity_id history
     = Some (cached, self, [LogCacheHit entity_id]))
  /\ (forall stats self' logs,
        _cache self !! key = None ->
        compute_entity_stats_typed self entity_id history
        = Some (stats, self', logs) ->
        fresh_stats_typed history = Some stats
        /\ logs = [LogComputeStats entity_id (length (typed_dates history))]
        /\ _cache self' = <[key := stats]> (_cache self)
        /\ size (_cache self') = S (size (_cache self)))
  /\ (_cache self !! key = None ->
      fresh_stats_typed history = None ->
      compute_entity_stats_typed self entity_id history = None)
  /\ (forall stats self' logs,
        compute_entity_stats_typed self entity_id history
        = Some (stats, self', logs) ->
        forall k, k <> key -> _cache self' !! k = _cache self !! k)
  /\ (exists stats self',
        compute_entity_stats_typed create_occurrence_extractor "shop"
          (Datetime64 [date 4; date 8])
        = Some (stats, self', [LogComputeStats "shop" 2])
        /\ size (_cache self') = 1%nat).
Proof.
  cbv zeta. unfold compute_entity_stats_typed.
  split; [|split; [|split; [|split]]].
  - by intros cached ->.
  - intros stats self' logs Hmiss. rewrite Hmiss.
    destruct (fresh_stats_typed history) as [fresh|]; [|done].
    cbn [mbind option_bind]. intros [= <- <- <-]. cbn [_cache].
    split; [done|]. split; [done|]. split; [done|].
    by apply map_size_insert_None.
  - by intros -> ->.
  - intros stats self' logs.
    destruct (_cache self !! cache_key entity_id (length (typed_dates history))).
    + by intros [= _ <- _].
    + destruct (fresh_stats_typed history) as [fresh|]; [|done].
      cbn [mbind option_bind]. intros [= _ <- _] k Hk. cbn [_cache].
      by rewrite lookup_insert_ne.
  - eexists _, _. split; vm_compute; reflexivity.
Qed.

(** X2.  On an extractor that a program can hold, the statistics that a
    call returns count as many events as the history of the call has rows,
    whether they were computed or read from the cache. *)
Theorem total_events_is_history_length self entity_id history :
  reachable self ->
  exists stats self' logs,
    compute_entity_stats self entity_id history = Some (stats, self', logs)
    /\ total_events stats = length history.
Proof.
  intros Hreach.
  destruct (compute_entity_stats_total self entity_id history)
    as [[[stats self'] logs] Hcall].
  exists stats, self', logs. split; [exact Hcall|].
  unfold compute_entity_stats in Hcall.
  destruct (_cache self !! cache_key entity_id (length history)) as [cached|] eqn:E.
  - injection Hcall as <- <- <-.
    destruct (reachable_consistent _ Hreach _ _ _ E) as (history' & Hlen & Hstats).
    by rewrite (fresh_stats_total_events _ _ Hstats).
  - destruct (fresh_stats history) as [fresh|] eqn:Hfresh; [|done].
    injection Hcall as <- <- <-. by apply fresh_stats_total_events.
Qed.

Lemma total_events_is_history_length_witness :
  exists stats self' logs,
    compute_entity_stats create_occurrence_extractor "shop" [date 4; date 8]
    = Some (stats, self', logs)
    /\ total_events stats = length [date 4; date 8].
Proof.
  apply (total_events_is_history_length create_occurrence_extractor "shop"
           [date 4; date 8]).
  apply reachable_create.
Defined.

(** ** The order of the rows *)

Lemma sort_values_Permutation_eq history history' :
  history ≡ₚ history' -> sort_values history = sort_values history'.
Proof.
  intros Hperm. apply (Sorted_unique Z.le); try apply sort_values_Sorted.
  by rewrite !sort_values_Permutation.
Qed.

(** X3.  The rows of the history may come in any order: two histories with
    the same dates, in whatever order, get the same answer from
    [compute_entity_stats], the same extractor and the same log. *)
Theorem compute_entity_stats_row_order self entity_id history history' :
  history ≡ₚ history' ->
  compute_entity_stats self entity_id history
  = compute_entity_stats self entity_id history'.
Proof.
  intros Hperm. unfold compute_entity_stats, fresh_stats.
  by rewrite (sort_values_Permutation_eq _ _ Hperm), (Permutation_length Hperm).
Qed.

Lemma compute_entity_stats_row_order_witness :
  compute_entity_stats create_occurrence_extractor "shop" [date 11; date 4; date 8]
  = compute_entity_stats create_occurrence_extractor "shop" [date 4; date 8; date 11].
Proof.
  apply (compute_entity_stats_row_order create_occurrence_extractor "shop"
           [date 11; date 4; date 8] [date 4; date 8; date 11]).
  apply (Permutation_cons_append [date 4; date 8] (date 11)).
Defined.

(** ** The span of a history *)

(** X4.  On a cache miss with a non-empty history, the span is the number
    of whole days from the earliest to the latest timestamp.  It is never
    negative, it is 0 for a history of one event, and it is the difference
    of the two calendar dates when the latest event is not at an earlier
    time of day than the earliest one. *)
Theorem history_span_days_of_miss self entity_id history min_date max_date :
  series_min history = Some min_date ->
  series_max history = Some max_date ->
  _cache self !! cache_key entity_id (length history) = None ->
  exists stats self' logs,
    compute_entity_stats self entity_id history = Some (stats, self', logs)
    /\ history_span_days stats = Some (days (max_date - min_date))
    /\ 0 <= days (max_date - min_date)
    /\ (length history = 1%nat -> history_span_days stats = Some 0)
    /\ (time_of_day min_date <= time_of_day max_date ->
        history_span_days stats = Some (day_number max_date - day_number min_date)).
Proof.
  intros Hmin Hmax Hmiss.
  destruct (compute_entity_stats_miss _ _ _ Hmiss) as (stats & Hstats & Hcall).
  pose proof (series_min_le_max _ _ _ Hmin Hmax) as Hle.
  assert (Hspan : history_span_days stats = Some (days (max_date - min_date))).
  { unfold fresh_stats in Hstats.
    destruct (_compute_weekday_stats (sort_values history)); [|done].
    injection Hstats as <-. cbn [history_span_days].
    pose proof (sort_values_Permutation history) as Hperm.
    rewrite (series_min_Permutation _ _ Hperm), (series_max_Permutation _ _ Hperm).
    by rewrite Hmin, Hmax. }
  eexists _, _, _. split; [exact Hcall|]. split; [exact Hspan|].
  split; [by apply days_nonneg|]. split.
  - intros Hone. rewrite Hspan.
    destruct history as [|d [|d' ds]]; [done| |done].
    injection Hmin as <-. injection Hmax as <-. unfold col_max, col_min. simpl.
    by rewrite Z.sub_diag.
  - intros Htod. by rewrite Hspan, days_between, decide_True.
Qed.

Lemma history_span_days_of_miss_witness :
  exists stats self' logs,
    compute_entity_stats create_occurrence_extractor "shop" [date 4; date 17; date 11]
    = Some (stats, self', logs)
    /\ history_span_days stats = Some (days (date 17 - date 4))
    /\ 0 <= days (date 17 - date 4)
    /\ (length [date 4; date 17; date 11] = 1%nat -> history_span_days stats = Some 0)
    /\ (time_of_day (date 4) <= time_of_day (date 17) ->
        history_span_days stats = Some (day_number (date 17) - day_number (date 4))).
Proof.
  apply (history_span_days_of_miss create_occurrence_extractor "shop"
           [date 4; date 17; date 11] (date 4) (date 17)); reflexivity.
Defined.

(** ** The gap list of any history *)

Lemma consecutive_day_gaps_length history :
  length (consecutive_day_gaps history) = (length history - 1)%nat.
Proof.
  induction history as [|a [|b rest] IH]; [done | done |].
  cbn [consecutive_day_gaps length] in *. lia.
Qed.

Lemma gaps_positive_and_few_helper history :
  Forall (fun g => 0 < g) (_compute_gaps_between_events history)
  /\ (length (_compute_gaps_between_events history) <= length history - 1)%nat.
Proof.
  rewrite _compute_gaps_between_events_spec. split.
  - apply Forall_forall. by intros g [Hg _]%list_elem_of_filter.
  - rewrite <- consecutive_day_gaps_length. apply length_filter.
Qed.

(** X5.  Whatever the history, sorted or not, every gap of the gap list is
    a positive number of days, and there is at most one gap less than the
    history has rows. *)
Theorem gaps_positive_and_few history :
  Forall (fun g => 0 < g) (_compute_gaps_between_events history)
  /\ (length (_compute_gaps_between_events history) <= length history - 1)%nat.
Proof. apply gaps_positive_and_few_helper. Qed.

Lemma days_superadditive x y : days x + days y <= days (x + y).
Proof.
  unfold days. pose proof NS_PER_DAY_pos.
  apply Z.div_le_lower_bound; [done|].
  pose proof (Z.mul_div_le x NS_PER_DAY). pose proof (Z.mul_div_le y NS_PER_DAY).
  lia.
Qed.

Lemma sum_gaps_filter_positive gaps :
  Forall (fun g => 0 <= g) gaps ->
  sum_gaps (filter (fun g => 0 < g) gaps) = sum_gaps gaps.
Proof.
  unfold sum_gaps. induction 1 as [|g gaps Hg _ IH]; [done|].
  rewrite (filter_cons (fun g => 0 < g)).
  destruct (decide (0 < g)); cbn [foldr]; lia.
Qed.

Lemma sum_consecutive_day_gaps (rest : list Timestamp) : forall a z,
  Sorted Z.le (a :: rest) ->
  last (a :: rest) = Some z ->
  a <= z
  /\ sum_gaps (consecutive_day_gaps (a :: rest)) <= days (z - a)
  /\ (Forall (fun t => time_of_day t = 0) (a :: rest) ->
      sum_gaps (consecutive_day_gaps (a :: rest)) = days (z - a)).
Proof.
  induction rest as [|b rest IH]; intros a z Hsorted Hlast.
  - injection Hlast as <-. rewrite Z.sub_diag. by repeat split.
  - rewrite last_cons_cons in Hlast.
    inversion Hsorted as [|? ? Hrest Hhd]; subst. inversion Hhd; subst.
    destruct (IH b z Hrest Hlast) as (Hbz & Hle & Heq).
    change (consecutive_day_gaps (a :: b :: rest))
      with (days (b - a) :: consecutive_day_gaps (b :: rest)).
    change (sum_gaps (days (b - a) :: consecutive_day_gaps (b :: rest)))
      with (days (b - a) + sum_gaps (consecutive_day_gaps (b :: rest))).
    split; [lia|]. split.
    + pose proof (days_superadditive (b - a) (z - b)) as Hsup.
      replace (b - a + (z - b)) with (z - a) in Hsup by lia. lia.
    + intros Hall. inversion Hall as [|? ? Ha Hall']; subst.
      rewrite (Heq Hall').
      assert (Hb : time_of_day b = 0) by by inversion Hall'.
      assert (Hz : time_of_day z = 0).
      { rewrite Forall_forall in Hall'. apply Hall'.
        apply last_Some_elem_of in Hlast. done. }
      rewrite !days_between, !decide_True by lia. lia.
Qed.

(** X6.  For a history sorted by date, the gaps add up to at most the
    number of whole days from the earliest to the latest timestamp, the
    span of the history; for timestamps without a time of day they add up
    to exactly that. *)
Theorem gaps_sum_within_span history min_date max_date :
  Sorted Z.le history ->
  series_min history = Some min_date ->
  series_max history = Some max_date ->
  sum_gaps (_compute_gaps_between_events history) <= days (max_date - min_date)
  /\ (Forall (fun t => time_of_day t = 0) history ->
      sum_gaps (_compute_gaps_between_events history) = days (max_date - min_date)).
Proof.
  intros Hsorted Hmin Hmax.
  rewrite _compute_gaps_between_events_spec,
    (sum_gaps_filter_positive _ (consecutive_day_gaps_sorted _ Hsorted)).
  destruct history as [|a rest]; [done|].
  destruct (last (a :: rest)) as [z|] eqn:Hlast; [|by apply last_None in Hlast].
  destruct (sum_consecutive_day_gaps rest a z Hsorted Hlast) as (Haz & Hle & Heq).
  apply series_min_spec in Hmin as [Hmin_in Hmin_le].
  apply series_max_spec in Hmax as [Hmax_in Hmax_le].
  assert (Hz_in : z ∈ a :: rest) by by apply last_Some_elem_of.
  assert (Ha_in : a ∈ a :: rest) by apply list_elem_of_here.
  assert (Hfirst : forall x, x ∈ a :: rest -> a <= x).
  { apply Sorted_StronglySorted in Hsorted; [|intros ???; lia].
    inversion Hsorted as [|? ? _ Hall]; subst. rewrite Forall_forall in Hall.
    intros x [->|Hx]%elem_of_cons; [lia | by apply Hall]. }
  assert (Hlast_max : forall x, x ∈ a :: rest -> x <= z).
  { clear -Hsorted Hlast. revert a Hsorted Hlast.
    induction rest as [|b rest IH]; intros a Hsorted Hlast x Hx.
    - injection Hlast as <-. apply list_elem_of_singleton in Hx. lia.
    - rewrite last_cons_cons in Hlast.
      inversion Hsorted as [|? ? Hrest Hhd]; subst. inversion Hhd; subst.
      apply elem_of_cons in Hx as [->|Hx]; [|by apply (IH b)].
      transitivity b; [done|]. apply (IH b); [done | done | apply list_elem_of_here]. }
  assert (min_date = a) as -> by (apply Z.le_antisymm; auto).
  assert (max_date = z) as -> by (apply Z.le_antisymm; auto).
  done.
Qed.

Lemma gaps_sum_within_span_witness :
  sum_gaps (_compute_gaps_between_events [date 4; date 4; date 11; date 17])
  <= days (date 17 - date 4)
  /\ (Forall (fun t => time_of_day t = 0) [date 4; date 4; date 11; date 17] ->
      sum_gaps (_compute_gaps_between_events [date 4; date 4; date 11; date 17])
      = days (date 17 - date 4)).
Proof.
  apply (gaps_sum_within_span [date 4; date 4; date 11; date 17] (date 4) (date 17));
    [repeat constructor; by vm_compute | reflexivity | reflexivity].
Defined.

(** ** Weekdays in a range of dates *)

Lemma week_of_dates first_day w :
  0 <= w < 7 ->
  length (filter (fun d => weekday_of_day d = w) (seqZ first_day 7)) = 1%nat.
Proof.
  intros Hw.
  rewrite (Z.div_mod first_day 7) at 1 by lia.
  replace (7 * (first_day `div` 7) + first_day `mod` 7)
    with (first_day `mod` 7 + 7 * (first_day `div` 7)) by lia.
  rewrite filter_weekday_shift.
  pose proof (Z.mod_pos_bound first_day 7 ltac:(lia)) as Hr.
  assert (Hcases : forall r, 0 <= r < 7 ->
            r = 0 \/ r = 1 \/ r = 2 \/ r = 3 \/ r = 4 \/ r = 5 \/ r = 6) by lia.
  destruct (Hcases _ Hr) as [->|[->|[->|[->|[->|[->| ->]]]]]];
    destruct (Hcases _ Hw) as [->|[->|[->|[->|[->|[->| ->]]]]]];
    vm_compute; reflexivity.
Qed.

(** Among [7 q + r] consecutive dates, [r < 7], a weekday comes [q] or
    [q + 1] times. *)
Lemma weekday_count_bounds (q : nat) : forall first_day r w,
  0 <= w < 7 -> 0 <= r < 7 ->
  (q <= length (filter (fun d => weekday_of_day d = w)
                       (seqZ first_day (7 * Z.of_nat q + r))) <= q + 1)%nat.
Proof.
  induction q as [|q IH]; intros first_day r w Hw Hr.
  - replace (7 * Z.of_nat 0 + r) with r by lia.
    pose proof (week_of_dates first_day w Hw) as Hweek.
    replace 7 with (r + (7 - r)) in Hweek by lia.
    rewrite seqZ_app, filter_app, length_app in Hweek by lia. lia.
  - replace (7 * Z.of_nat (S q) + r) with (7 + (7 * Z.of_nat q + r)) by lia.
    rewrite seqZ_app, filter_app, length_app, week_of_dates by lia.
    specialize (IH (first_day + 7) r w Hw Hr). lia.
Qed.

(** X7.  From [start_date] to [end_date], a weekday 0..6 is counted as many
    times as the range has whole weeks, or once more; no weekday is
    counted when [end_date] is before [start_date], and the weekday of
    [start_date] is counted at least once otherwise.  So the counts of two
    weekdays differ by at most one, and a weekday of a range of seven days
    or more is counted at least once. *)
Theorem count_weekdays_in_range_balanced start_date end_date w :
  0 <= w < 7 ->
  (end_date < start_date -> _count_weekdays_in_range start_date end_date w = 0)
  /\ (start_date <= end_date ->
      (days (end_date - start_date) + 1) / 7
      <= _count_weekdays_in_range start_date end_date w
      <= (days (end_date - start_date) + 1) / 7 + 1)
  /\ (start_date <= end_date -> w = weekday start_date ->
      1 <= _count_weekdays_in_range start_date end_date w).
Proof.
  intros Hw. split; [|split].
  - intros Hlt. unfold _count_weekdays_in_range.
    rewrite count_loop_step. by rewrite decide_False by lia.
  - intros Hle. rewrite _count_weekdays_in_range_spec by done.
    unfold calendar_dates_on_weekday.
    pose proof (days_nonneg _ _ Hle) as Hpos.
    set (n := days (end_date - start_date) + 1) in *.
    replace (day_number start_date + days (end_date - start_date)
             - day_number start_date + 1) with n by lia.
    pose proof (Z.div_mod n 7 ltac:(lia)) as Hn.
    pose proof (Z.mod_pos_bound n 7 ltac:(lia)) as Hr.
    assert (0 <= n / 7) by (apply Z.div_pos; lia).
    pose proof (weekday_count_bounds (Z.to_nat (n / 7)) (day_number start_date)
                  (n mod 7) w Hw Hr) as Hbounds.
    rewrite Z2Nat.id, <- Hn in Hbounds by done. lia.
  - intros Hle ->. rewrite _count_weekdays_in_range_spec by done.
    unfold calendar_dates_on_weekday.
    pose proof (days_nonneg _ _ Hle) as Hpos.
    rewrite seqZ_cons, filter_cons by lia.
    rewrite decide_True by done. cbn [length]. lia.
Qed.

Lemma count_weekdays_in_range_balanced_witness :
  (date 17 < date 4 -> _count_weekdays_in_range (date 4) (date 17) 0 = 0)
  /\ (date 4 <= date 17 ->
      (days (date 17 - date 4) + 1) / 7
      <= _count_weekdays_in_range (date 4) (date 17) 0
      <= (days (date 17 - date 4) + 1) / 7 + 1)
  /\ (date 4 <= date 17 -> 0 = weekday (date 4) ->
      1 <= _count_weekdays_in_range (date 4) (date 17) 0).
Proof. apply (count_weekdays_in_range_balanced (date 4) (date 17) 0). lia. Defined.

(** ** Sums over the weekdays *)

Lemma weekday_filter_sum (f : Z -> Z) (l : list Z) :
  (forall x, x ∈ l -> 0 <= f x < 7) ->
  foldr (fun w acc => Z.of_nat (length (filter (fun x => f x = w) l)) + acc)
        0 [0; 1; 2; 3; 4; 5; 6]
  = Z.of_nat (length l).
Proof.
  induction l as [|x l IH]; intros Hrange; [done|].
  assert (Hx : 0 <= f x < 7) by apply Hrange, list_elem_of_here.
  assert (IH' := IH (fun y Hy => Hrange y (list_elem_of_further _ _ _ Hy))).
  cbn [foldr] in *.
  rewrite !(filter_cons (fun y => f y = _)). cbn [length].
  repeat case_decide; cbn [length]; lia.
Qed.

Lemma sum_over_weekdays_entries (field : WeekdayInfo -> Z) stats (g : Z -> Z) :
  (forall w, 0 <= w < 7 ->
     exists info, stats !! w = Some info /\ field info = g w) ->
  sum_over_weekdays field stats
  = foldr (fun w acc => g w + acc) 0 [0; 1; 2; 3; 4; 5; 6].
Proof.
  intros Hentries. unfold sum_over_weekdays.
  change (range 7) with [0; 1; 2; 3; 4; 5; 6]. cbn [foldr].
  assert (Hfield : forall w, 0 <= w < 7 ->
            field (default absent_weekday_info (stats !! w)) = g w).
  { intros w Hw. destruct (Hentries w Hw) as (info & -> & <-). done. }
  rewrite !Hfield by lia. done.
Qed.

(** X8.  On a cache miss with a non-empty history, the counts of the seven
    weekdays add up to the number of events of the history, and their
    opportunities add up to the span in whole days plus one, the number of
    dates that the day-by-day walk over the span visits. *)
Theorem weekday_counts_add_up self entity_id history min_date max_date :
  series_min history = Some min_date ->
  series_max history = Some max_date ->
  _cache self !! cache_key entity_id (length history) = None ->
  exists stats self' logs,
    compute_entity_stats self entity_id history = Some (stats, self', logs)
    /\ sum_over_weekdays occurrence_count (weekday_stats stats)
       = Z.of_nat (length history)
    /\ sum_over_weekdays total_opportunities (weekday_stats stats)
       = days (max_date - min_date) + 1.
Proof.
  intros Hmin Hmax Hmiss.
  destruct (compute_entity_stats_miss _ _ _ Hmiss) as (stats & Hstats & Hcall).
  pose proof (series_min_le_max _ _ _ Hmin Hmax) as Hle.
  pose proof (days_nonneg _ _ Hle) as Hpos.
  eexists _, _, _. split; [exact Hcall|]. split.
  - rewrite (sum_over_weekdays_entries _ _
               (fun w => Z.of_nat (length (events_on_weekday w history)))).
    + apply (weekday_filter_sum weekday). intros x _. apply weekday_range.
    + intros w Hw.
      destruct (fresh_stats_weekday_entry _ _ _ _ _ Hmin Hmax Hstats Hw)
        as (info & Hinfo & Hcount & _).
      by exists info.
  - rewrite (sum_over_weekdays_entries _ _
               (fun w => Z.of_nat (length (filter (fun d => weekday_of_day d = w)
                           (seqZ (day_number min_date)
                                 (days (max_date - min_date) + 1)))))).
    + rewrite (weekday_filter_sum weekday_of_day), length_seqZ; [lia|].
      intros x _. unfold weekday_of_day. apply Z.mod_pos_bound. lia.
    + intros w Hw.
      destruct (fresh_stats_weekday_entry _ _ _ _ _ Hmin Hmax Hstats Hw)
        as (info & Hinfo & _ & Htotal & _).
      exists info. split; [done|].
      rewrite Htotal, _count_weekdays_in_range_spec by done.
      unfold calendar_dates_on_weekday.
      replace (day_number min_date + days (max_date - min_date)
               - day_number min_date + 1)
        with (days (max_date - min_date) + 1) by lia.
      done.
Qed.

Lemma weekday_counts_add_up_witness :
  exists stats self' logs,
    compute_entity_stats create_occurrence_extractor "shop"
      [date 4; date 4; date 8; date 17]
    = Some (stats, self', logs)
    /\ sum_over_weekdays occurrence_count (weekday_stats stats)
       = Z.of_nat (length [date 4; date 4; date 8; date 17])
    /\ sum_over_weekdays total_opportunities (weekday_stats stats)
       = days (date 17 - date 4) + 1.
Proof.
  apply (weekday_counts_add_up create_occurrence_extractor "shop"
           [date 4; date 4; date 8; date 17] (date 4) (date 17)); reflexivity.
Defined.

(** ** Features and decisions at the edges *)

Lemma empty_history_defaults_of_reachable self entity_id :
  reachable self ->
  exists self' logs,
    compute_entity_stats self entity_id []
    = Some ({| weekday_stats := ∅;
               stddev_gap_between_events := Float64.zero;
               periodicity_score := Float64.zero;
               total_events := 0;
               history_span_days := None |}, self', logs).
Proof.
  intros Hreach. unfold compute_entity_stats. cbn [length].
  destruct (_cache self !! cache_key entity_id 0) as [stats|] eqn:E.
  - destruct (reachable_consistent _ Hreach _ _ _ E) as (history & Hlen & Hstats).
    apply nil_length_inv in Hlen as ->.
    rewrite fresh_stats_empty in Hstats. injection Hstats as <-.
    by eexists _, _.
  - rewrite fresh_stats_empty. by eexists _, _.
Qed.

(** X9.  With an empty history whose date column is datetime-typed, on an
    extractor that a program can hold, [extract_features] returns count 0,
    rate 0.0, standard deviation 0.0 and periodicity 0.0 for every target
    date, and [should_predict_event] rejects for an insufficient sample,
    with confidence 0.0, whenever [min_occurrence_count] is 1 or more.
    With an empty history whose date column has the dtype [object], the
    two calls raise when the cache has no entry for the entity and the
    length 0, and answer as for the datetime-typed one when it has. *)
Theorem empty_history_features_and_decision (get_week_of_month : Timestamp -> Z)
    self entity_id target_date min_occurrence_count min_occurrence_rate :
  reachable self ->
  (exists self' logs,
     extract_features_typed get_week_of_month self entity_id target_date
       (Datetime64 [])
     = Some ({| weekday_occurrence_rate := Float64.zero;
                weekday_occurrence_count := 0;
                fv_stddev_gap_between_events := Float64.zero;
                fv_periodicity_score := Float64.zero;
                week_of_month :=
                  Float64.of_int (get_week_of_month target_date) |},
             self', logs)
     /\ (1 <= min_occurrence_count ->
         should_predict_event_typed get_week_of_month self entity_id
           target_date (Datetime64 []) min_occurrence_count min_occurrence_rate
         = Some (false, Float64.zero,
                 InsufficientSample 0 min_occurrence_count, self', logs)))
  /\ (_cache self !! cache_key entity_id 0 = None ->
      extract_features_typed get_week_of_month self entity_id target_date
        EmptyObject = None
      /\ should_predict_event_typed get_week_of_month self entity_id
           target_date EmptyObject min_occurrence_count min_occurrence_rate
         = None)
  /\ (is_Some (_cache self !! cache_key entity_id 0) ->
      extract_features_typed get_week_of_month self entity_id target_date
        EmptyObject
      = extract_features_typed get_week_of_month self entity_id target_date
          (Datetime64 [])
      /\ should_predict_event_typed get_week_of_month self entity_id
           target_date EmptyObject min_occurrence_count min_occurrence_rate
         = should_predict_event_typed get_week_of_month self entity_id
             target_date (Datetime64 []) min_occurrence_count
             min_occurrence_rate).
Proof.
  intros Hreach. split; [|split].
  - destruct (empty_history_defaults_of_reachable self entity_id Hreach)
      as (self' & logs & Hcall).
    exists self', logs.
    rewrite should_predict_event_typed_datetime, extract_features_typed_datetime.
    unfold should_predict_event, extract_features. rewrite Hcall.
    cbn [mbind option_bind weekday_stats]. rewrite lookup_empty.
    split; [reflexivity|]. intros Hmin. cbn. by rewrite decide_True by lia.
  - intros Hmiss.
    unfold should_predict_event_typed, extract_features_typed.
    rewrite compute_entity_stats_typed_empty_object, Hmiss. done.
  - intros [cached Hhit].
    unfold should_predict_event_typed, extract_features_typed.
    rewrite compute_entity_stats_typed_empty_object, Hhit.
    unfold compute_entity_stats_typed. cbn [typed_dates length].
    by rewrite Hhit.
Qed.

Lemma empty_history_features_and_decision_witness :
  (exists self' logs,
     extract_features_typed (fun _ => 1) create_occurrence_extractor "shop"
       (date 12) (Datetime64 [])
     = Some ({| weekday_occurrence_rate := Float64.zero;
                weekday_occurrence_count := 0;
                fv_stddev_gap_between_events := Float64.zero;
                fv_periodicity_score := Float64.zero;
                week_of_month := Float64.of_int 1 |},
             self', logs)
     /\ (1 <= 2 ->
         should_predict_event_typed (fun _ => 1) create_occurrence_extractor
           "shop" (date 12) (Datetime64 []) 2 default_min_occurrence_rate
         = Some (false, Float64.zero, InsufficientSample 0 2, self', logs)))
  /\ (_cache create_occurrence_extractor !! cache_key "shop" 0 = None ->
      extract_features_typed (fun _ => 1) create_occurrence_extractor "shop"
        (date 12) EmptyObject = None
      /\ should_predict_event_typed (fun _ => 1) create_occurrence_extractor
           "shop" (date 12) EmptyObject 2 default_min_occurrence_rate
         = None)
  /\ (is_Some (_cache create_occurrence_extractor !! cache_key "shop" 0) ->
      extract_features_typed (fun _ => 1) create_occurrence_extractor "shop"
        (date 12) EmptyObject
      = extract_features_typed (fun _ => 1) create_occurrence_extractor "shop"
          (date 12) (Datetime64 [])
      /\ should_predict_event_typed (fun _ => 1) create_occurrence_extractor
           "shop" (date 12) EmptyObject 2 default_min_occurrence_rate
         = should_predict_event_typed (fun _ => 1) create_occurrence_extractor
             "shop" (date 12) (Datetime64 []) 2 default_min_occurrence_rate).
Proof.
  apply (empty_history_features_and_decision (fun _ => 1)
           create_occurrence_extractor "shop" (date 12) 2
           default_min_occurrence_rate).
  apply reachable_create.
Defined.

(** X10.  On a cache miss, when no event of the history falls on the
    weekday of the target date and [min_occurrence_count] is 1 or more,
    [should_predict_event] rejects for an insufficient sample with count 0
    and confidence 0.0, whatever the rate threshold. *)
Theorem no_event_on_target_weekday_rejects (get_week_of_month : Timestamp -> Z)
    self entity_id target_date history min_occurrence_count min_occurrence_rate :
  _cache self !! cache_key entity_id (length history) = None ->
  events_on_weekday (weekday target_date) history = [] ->
  1 <= min_occurrence_count ->
  exists self' logs,
    should_predict_event get_week_of_month self entity_id target_date history
      min_occurrence_count min_occurrence_rate
    = Some (false, Float64.zero,
            InsufficientSample 0 min_occurrence_count, self', logs).
Proof.
  intros Hmiss Hnone Hmin.
  destruct (compute_entity_stats_miss _ _ _ Hmiss) as (stats & Hstats & Hcall).
  assert (Hcount : occurrence_count
                     (default absent_weekday_info
                        (weekday_stats stats !! weekday target_date)) = 0).
  { destruct history as [|d ds] eqn:E.
    - rewrite fresh_stats_empty in Hstats. injection Hstats as <-.
      cbn [weekday_stats]. by rewrite lookup_empty.
    - rewrite <- E in *.
      destruct (fresh_stats_weekday_entry history (col_min d ds) (col_max d ds)
                  stats (weekday target_date))
        as (info & -> & Hc & _); [by subst | by subst | done | apply weekday_range |].
      simpl. by rewrite Hc, Hnone. }
  eexists _, _.
  unfold should_predict_event, extract_features. rewrite Hcall.
  cbn [mbind option_bind weekday_occurrence_count weekday_occurrence_rate].
  rewrite Hcount. by rewrite decide_True by lia.
Qed.

Lemma no_event_on_target_weekday_rejects_witness :
  exists self' logs,
    should_predict_event (fun _ => 1) create_occurrence_extractor "shop" (date 12)
      [date 4; date 11; date 15] 1 Float64.zero
    = Some (false, Float64.zero, InsufficientSample 0 1, self', logs).
Proof.
  apply (no_event_on_target_weekday_rejects (fun _ => 1)
           create_occurrence_extractor "shop" (date 12)
           [date 4; date 11; date 15] 1 Float64.zero);
    [reflexivity | reflexivity | lia].
Defined.

(** X11.  Lowering [min_occurrence_count] never turns an authorized
    prediction into a rejection: a call that authorizes at a threshold
    returns the same result at any lower threshold, on the same extractor
    and with the same rate threshold. *)
Theorem authorized_at_lower_count_threshold (get_week_of_month : Timestamp -> Z)
    self entity_id target_date history min_count min_count' min_occurrence_rate :
  decision_of (should_predict_event get_week_of_month self entity_id target_date
                 history min_count min_occurrence_rate) = Some true ->
  min_count' <= min_count ->
  should_predict_event get_week_of_month self entity_id target_date history
    min_count' min_occurrence_rate
  = should_predict_event get_week_of_month self entity_id target_date history
      min_count min_occurrence_rate.
Proof.
  unfold decision_of, should_predict_event. intros Hyes Hle.
  destruct (extract_features get_week_of_month self entity_id target_date history)
    as [[[features self'] logs]|]; [|done].
  cbn [mbind option_bind] in *.
  destruct (decide (weekday_occurrence_count features < min_count)); [done|].
  rewrite decide_False by lia. done.
Qed.

Lemma authorized_at_lower_count_threshold_witness :
  should_predict_event (fun _ => 1) create_occurrence_extractor "shop" (date 18)
    [date 4; date 11] 1 default_min_occurrence_rate
  = should_predict_event (fun _ => 1) create_occurrence_extractor "shop" (date 18)
      [date 4; date 11] 2 default_min_occurrence_rate.
Proof.
  apply (authorized_at_lower_count_threshold (fun _ => 1)
           create_occurrence_extractor "shop" (date 18) [date 4; date 11]
           2 1 default_min_occurrence_rate); [by vm_compute | lia].
Defined.

(** X12.  On a cache miss, a history of three events or fewer has
    periodicity score 0.0, and a history of two events or fewer has
    standard deviation 0.0 of its gaps: four events are the least for a
    score, three for a deviation. *)
Theorem short_history_has_no_periodicity self entity_id history :
  _cache self !! cache_key entity_id (length history) = None ->
  exists stats self' logs,
    compute_entity_stats self entity_id history = Some (stats, self', logs)
    /\ ((length history <= 3)%nat -> periodicity_score stats = Float64.zero)
    /\ ((length history <= 2)%nat -> stddev_gap_between_events stats = Float64.zero).
Proof.
  intros Hmiss.
  destruct (compute_entity_stats_miss _ _ _ Hmiss) as (stats & Hstats & Hcall).
  eexists _, _, _. split; [exact Hcall|].
  unfold fresh_stats in Hstats.
  destruct (_compute_weekday_stats (sort_values history)); [|done].
  injection Hstats as <-. cbn [periodicity_score stddev_gap_between_events].
  destruct (gaps_positive_and_few_helper (sort_values history)) as [_ Hfew].
  rewrite sort_values_length in Hfew. split.
  - intros Hlen. unfold _compute_periodicity_score. by rewrite decide_True by lia.
  - intros Hlen. by rewrite decide_False by lia.
Qed.

Lemma short_history_has_no_periodicity_witness :
  exists stats self' logs,
    compute_entity_stats create_occurrence_extractor "shop" [date 4; date 11; date 18]
    = Some (stats, self', logs)
    /\ ((length [date 4; date 11; date 18] <= 3)%nat ->
        periodicity_score stats = Float64.zero)
    /\ ((length [date 4; date 11; date 18] <= 2)%nat ->
        stddev_gap_between_events stats = Float64.zero).
Proof.
  apply (short_history_has_no_periodicity create_occurrence_extractor "shop"
           [date 4; date 11; date 18]).
  reflexivity.
Defined.

(** ** Clearing and counting the cache *)

(** X13.  Clearing invalidates: after [clear_cache] for an entity, or
    without an entity, the next [compute_entity_stats] for that entity finds
    no entry, computes the statistics from the history it is given, stores
    them and logs the computation. *)
Theorem compute_after_clear_recomputes self entity_id history :
  exists stats,
    fresh_stats history = Some stats
    /\ forall cleared,
         cleared = (clear_cache self (Some entity_id)).1
         \/ cleared = (clear_cache self None).1 ->
         compute_entity_stats cleared entity_id history
         = Some (stats,
                 {| _cache := <[cache_key entity_id (length history) := stats]>
                                (_cache cleared) |},
                 [LogComputeStats entity_id (length history)]).
Proof.
  destruct (fresh_stats_total history) as [stats Hstats].
  exists stats. split; [exact Hstats|]. intros cleared Hcleared.
  assert (Hmiss : _cache cleared !! cache_key entity_id (length history) = None).
  { destruct Hcleared as [-> | ->]; [|done].
    destruct entity_id as [|c rest]; [done|].
    by rewrite clear_cache_lookup, startswith_own_key. }
  unfold compute_entity_stats. by rewrite Hmiss, Hstats.
Qed.

Lemma clear_cache_subseteq self entity_id :
  _cache (clear_cache self entity_id).1 ⊆ _cache self.
Proof.
  apply map_subseteq_spec. intros k stats. apply clear_cache_subset.
Qed.

(** X14.  [clear_cache] only removes: an entry of the cache after the call
    was the same entry before it, so the cache does not grow; and clearing
    a second time with the same argument changes nothing more. *)
Theorem clear_cache_only_removes self entity_id :
  (forall k stats,
     _cache (clear_cache self entity_id).1 !! k = Some stats ->
     _cache self !! k = Some stats)
  /\ (cache_size (get_cache_stats (clear_cache self entity_id).1)
      <= cache_size (get_cache_stats self))%nat
  /\ clear_cache (clear_cache self entity_id).1 entity_id
     = clear_cache self entity_id.
Proof.
  split; [intros k stats; apply clear_cache_subset|]. split.
  - cbn [get_cache_stats cache_size].
    apply map_subseteq_size, clear_cache_subseteq.
  - destruct entity_id as [[|c rest]|]; [done| |done].
    assert (Hmap : _cache (clear_cache (clear_cache self (Some (String c rest))).1
                             (Some (String c rest))).1
                   = _cache (clear_cache self (Some (String c rest))).1).
    { apply map_eq. intros k. rewrite !clear_cache_lookup.
      by destruct (startswith k (String c rest)). }
    unfold clear_cache at 1 3. cbn [fst]. f_equal.
    unfold clear_cache in Hmap at 1 3. cbn [fst _cache] in Hmap.
    by rewrite Hmap.
Qed.

Lemma prefix_app_cases (b : string) : forall a c s,
  String.prefix a (b +:+ String c s) = true ->
  String.prefix a b = true \/ String.prefix (b +:+ String c "") a = true.
Proof.
  induction b as [|y b IH]; intros [|x a] c s Hpre.
  - by left.
  - right. rewrite append_nil in *. cbn [String.prefix] in *.
    destruct (ascii_dec x c) as [->|]; [|done].
    destruct (ascii_dec c c); [|done]. by destruct a.
  - by left.
  - rewrite append_cons in *. cbn [String.prefix] in *.
    destruct (ascii_dec x y) as [->|]; [|done].
    destruct (IH a c s Hpre) as [Hl|Hr]; [by left | right].
    destruct (ascii_dec y y); done.
Qed.

(** X15.  [clear_cache] for an entity leaves alone the entries of every
    entity whose id does not start with the given id and whose id followed
    by an underscore does not start the given id. *)
Theorem clear_cache_keeps_unrelated self c rest other n :
  String.prefix (String c rest) other = false ->
  String.prefix (other +:+ "_") (String c rest) = false ->
  _cache (clear_cache self (Some (String c rest))).1 !! cache_key other n
  = _cache self !! cache_key other n.
Proof.
  intros Hnot Hnot'. rewrite clear_cache_lookup.
  destruct (startswith (cache_key other n) (String c rest)) eqn:Hstart; [|done].
  unfold startswith, cache_key in Hstart.
  change ("_" +:+ pretty n) with (String "_" (pretty n)) in Hstart.
  apply prefix_app_cases in Hstart as [Hp|Hp]; congruence.
Qed.

Lemma clear_cache_keeps_unrelated_witness :
  (extractor_after ["shop"; "bar"] [date 4]
   ≫= fun self => _cache (clear_cache self (Some "shop")).1 !! cache_key "bar" 1)
  = (extractor_after ["shop"; "bar"] [date 4]
     ≫= fun self => _cache self !! cache_key "bar" 1).
Proof.
  destruct (extractor_after ["shop"; "bar"] [date 4]) as [self|]; [|done].
  cbn [mbind option_bind].
  apply (clear_cache_keeps_unrelated self "s"%char "hop" "bar" 1); reflexivity.
Defined.

Lemma size_list_to_set_le (l : list string) :
  (size (list_to_set l : gset string) <= length l)%nat.
Proof.
  induction l as [|x l IH]; [done|].
  rewrite list_to_set_cons, size_union_alt, size_singleton. cbn [length].
  assert (size (list_to_set l ∖ {[x]} : gset string) <= size (list_to_set l : gset string))%nat
    by (apply subseteq_size, subseteq_difference_l; reflexivity).
  lia.
Qed.

(** X16.  [get_cache_stats] never reports more entities than entries, and
    reports none of either for a new extractor and after a [clear_cache]
    without an entity. *)
Theorem cached_entities_at_most_cache_size self :
  (cached_entities (get_cache_stats self) <= cache_size (get_cache_stats self))%nat
  /\ get_cache_stats create_occurrence_extractor
     = {| cache_size := 0; cached_entities := 0 |}
  /\ get_cache_stats (clear_cache self None).1
     = {| cache_size := 0; cached_entities := 0 |}.
Proof.
  split; [|by split].
  cbn [get_cache_stats cached_entities cache_size].
  etransitivity; [apply size_list_to_set_le|].
  unfold cache_keys. by rewrite !length_fmap, length_map_to_list.
Qed.

(** ** The cache after a series of calls *)

(** The keys of the cache after a call are those before it and the key of
    the call. *)
Lemma compute_entity_stats_dom self entity_id history :
  exists stats self' logs,
    compute_entity_stats self entity_id history = Some (stats, self', logs)
    /\ dom (_cache self')
       = {[cache_key entity_id (length history)]} ∪ dom (_cache self).
Proof.
  unfold compute_entity_stats.
  destruct (_cache self !! cache_key entity_id (length history)) as [cached|] eqn:E.
  - eexists _, _, _. split; [reflexivity|].
    apply set_eq. intros k. rewrite elem_of_union, elem_of_singleton, !elem_of_dom.
    split; [by right|]. intros [->|Hk]; [by eexists | done].
  - destruct (fresh_stats_total history) as [stats ->].
    eexists _, _, _. split; [reflexivity|]. cbn [_cache]. apply dom_insert_L.
Qed.

Lemma foldl_calls_dom (calls : list (string * DataFrame)) : forall self0,
  exists self,
    foldl (fun acc call =>
             self ← acc;
             '(_, self', _) ← compute_entity_stats self call.1 call.2;
             Some self')
          (Some self0) calls = Some self
    /\ dom (_cache self)
       = list_to_set ((fun call => cache_key call.1 (length call.2)) <$> calls)
         ∪ dom (_cache self0).
Proof.
  induction calls as [|[entity_id history] calls IH]; intros self0.
  - exists self0. split; [done|]. cbn [fmap list_fmap list_to_set].
    by rewrite (left_id_L ∅ (∪)).
  - destruct (compute_entity_stats_dom self0 entity_id history)
      as (stats & self1 & logs & Hcall & Hdom).
    destruct (IH self1) as (self & Hfold & Hdom').
    exists self. cbn [foldl fst snd mbind option_bind]. rewrite Hcall.
    cbn [mbind option_bind]. split; [exact Hfold|].
    rewrite Hdom', Hdom, fmap_cons, list_to_set_cons. cbn [fst snd].
    apply set_eq. intros k. rewrite !elem_of_union. tauto.
Qed.

Lemma cache_keys_dom self k : k ∈ cache_keys self <-> k ∈ dom (_cache self).
Proof. by rewrite elem_of_cache_keys, elem_of_dom. Qed.

(** X17.  After [compute_entity_stats] was called on a new extractor for a
    series of entities and histories no two of which agree in both the
    entity id and the number of rows, the cache holds one entry for each
    call.  When, moreover, no entity id holds an underscore,
    [cached_entities] is the number of different entity ids. *)
Theorem cache_size_counts_distinct_calls (calls : list (string * DataFrame)) :
  NoDup ((fun call => (call.1, length call.2)) <$> calls) ->
  exists self,
    extractor_after_calls calls = Some self
    /\ cache_size (get_cache_stats self) = length calls
    /\ (Forall (fun call => has_separator call.1 = false) calls ->
        cached_entities (get_cache_stats self)
        = size (list_to_set (calls.*1) : gset string)).
Proof.
  intros Hnodup.
  destruct (foldl_calls_dom calls create_occurrence_extractor)
    as (self & Hfold & Hdom).
  exists self. split; [exact Hfold|].
  change (dom (_cache create_occurrence_extractor)) with (∅ : gset string) in Hdom.
  rewrite (right_id_L ∅ (∪)) in Hdom.
  split.
  - cbn [get_cache_stats cache_size].
    rewrite <- (size_dom (D := gset string)), Hdom, size_list_to_set.
    + by rewrite length_fmap.
    + replace ((fun call : string * DataFrame => cache_key call.1 (length call.2)) <$> calls)
        with ((fun p : string * nat => cache_key p.1 p.2)
                <$> ((fun call : string * DataFrame => (call.1, length call.2)) <$> calls))
        by (by rewrite <- list_fmap_compose).
      apply NoDup_fmap_2_strong; [|exact Hnodup].
      intros [e n] [e' n'] _ _ Heq. cbn [fst snd] in Heq.
      by apply cache_key_inj in Heq as [-> ->].
  - intros Hclean. cbn [get_cache_stats cached_entities]. f_equal.
    apply set_eq. intros x.
    rewrite !elem_of_list_to_set, !list_elem_of_fmap. split.
    + intros (k & -> & Hk%cache_keys_dom). rewrite Hdom in Hk.
      apply elem_of_list_to_set, list_elem_of_fmap in Hk as ([e h] & -> & Hin).
      exists (e, h). split; [|done]. cbn [fst snd].
      rewrite Forall_forall in Hclean. by apply first_segment_cache_key, (Hclean (e, h)).
    + intros ([e h] & -> & Hin). exists (cache_key e (length h)). split.
      * cbn [fst]. symmetry. rewrite Forall_forall in Hclean.
        by apply first_segment_cache_key, (Hclean (e, h)).
      * apply cache_keys_dom. rewrite Hdom.
        apply elem_of_list_to_set, list_elem_of_fmap. by exists (e, h).
Qed.

Lemma cache_size_counts_distinct_calls_witness :
  exists self,
    extractor_after_calls
      [("shop", [date 4]); ("shop", [date 4; date 11]); ("bar", [date 4])]
    = Some self
    /\ cache_size (get_cache_stats self)
       = length [("shop", [date 4]); ("shop", [date 4; date 11]); ("bar", [date 4])]
    /\ (Forall (fun call : string * DataFrame => has_separator call.1 = false)
          [("shop", [date 4]); ("shop", [date 4; date 11]); ("bar", [date 4])] ->
        cached_entities (get_cache_stats self)
        = size (list_to_set
                  ([("shop", [date 4]); ("shop", [date 4; date 11]);
                    ("bar", [date 4])].*1) : gset string)).
Proof.
  apply (cache_size_counts_distinct_calls
           [("shop", [date 4]); ("shop", [date 4; date 11]); ("bar", [date 4])]).
  match goal with |- ?P => apply (bool_decide_unpack P) end. by vm_compute.
Defined.

(** ** Calls that follow one another *)

Lemma compute_entity_stats_frame self entity_id history :
  exists stats self' logs,
    compute_entity_stats self entity_id history = Some (stats, self', logs)
    /\ forall k, k <> cache_key entity_id (length history) ->
       _cache self' !! k = _cache self !! k.
Proof.
  unfold compute_entity_stats.
  destruct (_cache self !! cache_key entity_id (length history)) as [cached|] eqn:E.
  - by eexists _, _, _.
  - destruct (fresh_stats_total history) as [stats ->].
    eexists _, _, _. split; [reflexivity|]. intros k Hk. cbn [_cache].
    by rewrite lookup_insert_ne.
Qed.

(** X18.  A call for another entity, or for a history of another length,
    does not change the statistics that a call returns: with or without
    the other call before it, [compute_entity_stats] returns the same
    statistics for an entity and a history. *)
Theorem other_calls_do_not_change_statistics
    self entity_id history entity_id' history' :
  (entity_id, length history) <> (entity_id', length history') ->
  exists stats' self' logs',
    compute_entity_stats self entity_id' history' = Some (stats', self', logs')
    /\ returned_stats (compute_entity_stats self' entity_id history)
       = returned_stats (compute_entity_stats self entity_id history).
Proof.
  intros Hother.
  destruct (compute_entity_stats_frame self entity_id' history')
    as (stats' & self' & logs' & Hcall & Hframe).
  exists stats', self', logs'. split; [exact Hcall|].
  assert (Hkey : cache_key entity_id (length history)
                 <> cache_key entity_id' (length history')).
  { intros [-> Hlen]%cache_key_inj. by rewrite Hlen in Hother. }
  unfold compute_entity_stats. rewrite (Hframe _ Hkey).
  destruct (_cache self !! cache_key entity_id (length history)); [done|].
  by destruct (fresh_stats history).
Qed.

Lemma other_calls_do_not_change_statistics_witness :
  exists stats' self' logs',
    compute_entity_stats create_occurrence_extractor "bar" [date 4]
    = Some (stats', self', logs')
    /\ returned_stats (compute_entity_stats self' "shop" [date 4; date 11])
       = returned_stats
           (compute_entity_stats create_occurrence_extractor "shop" [date 4; date 11]).
Proof.
  apply (other_calls_do_not_change_statistics create_occurrence_extractor
           "shop" [date 4; date 11] "bar" [date 4]).
  discriminate.
Defined.

(** X19.  A decision is repeatable: when [should_predict_event] returns,
    the same call on the extractor that it leaves returns the same
    decision, confidence and reason, leaves that extractor as it is and
    logs a cache hit. *)
Theorem should_predict_event_repeatable (get_week_of_month : Timestamp -> Z)
    self entity_id target_date history min_occurrence_count min_occurrence_rate
    decision confidence reason self' logs :
  should_predict_event_typed get_week_of_month self entity_id target_date
    history min_occurrence_count min_occurrence_rate
  = Some (decision, confidence, reason, self', logs) ->
  should_predict_event_typed get_week_of_month self' entity_id target_date
    history min_occurrence_count min_occurrence_rate
  = Some (decision, confidence, reason, self', [LogCacheHit entity_id]).
Proof.
  unfold should_predict_event_typed, extract_features_typed.
  destruct (compute_entity_stats_typed self entity_id history)
    as [[[stats self1] logs1]|] eqn:Hfirst; [|done].
  cbn [mbind option_bind weekday_occurrence_count weekday_occurrence_rate].
  set (info := default absent_weekday_info
                 (weekday_stats stats !! weekday target_date)).
  intros Hdecision.
  assert (Hself : self1 = self').
  { destruct (decide (occurrence_count info < min_occurrence_count));
      [by injection Hdecision|].
    destruct (Float64.ltb (occurrence_rate info) min_occurrence_rate);
      by injection Hdecision. }
  subst self1.
  rewrite (compute_entity_stats_typed_twice _ _ _ _ _ _ Hfirst).
  cbn [mbind option_bind weekday_occurrence_count weekday_occurrence_rate].
  fold info.
  destruct (decide (occurrence_count info < min_occurrence_count));
    [by injection Hdecision as <- <- <- _|].
  destruct (Float64.ltb (occurrence_rate info) min_occurrence_rate);
    by injection Hdecision as <- <- <- _.
Qed.

Lemma should_predict_event_repeatable_witness :
  exists decision confidence reason self' logs,
    should_predict_event_typed (fun _ => 1) create_occurrence_extractor "shop"
      (date 18) (Datetime64 [date 4; date 11]) 2 default_min_occurrence_rate
    = Some (decision, confidence, reason, self', logs)
    /\ should_predict_event_typed (fun _ => 1) self' "shop"
         (date 18) (Datetime64 [date 4; date 11]) 2 default_min_occurrence_rate
       = Some (decision, confidence, reason, self', [LogCacheHit "shop"]).
Proof.
  destruct (should_predict_event_typed (fun _ => 1) create_occurrence_extractor
              "shop" (date 18) (Datetime64 [date 4; date 11]) 2
              default_min_occurrence_rate)
    as [[[[[decision confidence] reason] self'] logs]|] eqn:Hcall.
  - exists decision, confidence, reason, self', logs. split; [reflexivity|].
    exact (should_predict_event_repeatable (fun _ => 1)
             create_occurrence_extractor "shop" (date 18)
             (Datetime64 [date 4; date 11]) 2 default_min_occurrence_rate
             decision confidence reason self' logs Hcall).
  - vm_compute in Hcall. discriminate Hcall.
Defined.

